(** * A shallow embedding of parts of ocf_datapipes

    Modelled files:
    - [ocf_datapipes/utils/consts/data_vars.py]: the NWP statistics tables
      and the [NWPStatDict] lookup;
    - [ocf_datapipes/select/select_pv_systems_on_capacity.py];
    - [ocf_datapipes/load/nwp/gfs.py]: [open_gfs], reduced to one grid cell
      (the operations act on every latitude/longitude cell independently);
    - [ocf_datapipes/training/metnet_national.py]: the construction of the
      lazy pipeline, as a term of datapipe constructors.

    Python exceptions are values of [exn]; fallible code returns a [result].
    Floating point values are rationals [Q]; a NaN is [None] in [value]. *)

From Stdlib Require Import ZArith QArith Qround Qabs List String Ascii Bool Lia Sorted.
Import ListNotations.
Open Scope string_scope.

(* ------------------------------------------------------------------ *)
(** ** Exceptions and the error monad *)

Record exn := mk_exn { exn_type : string; exn_msg : string }.

Definition KeyError (msg : string) : exn := mk_exn "KeyError" msg.
Definition ValueError (msg : string) : exn := mk_exn "ValueError" msg.
Definition IndexError (msg : string) : exn := mk_exn "IndexError" msg.
Definition UnboundLocalError (msg : string) : exn := mk_exn "UnboundLocalError" msg.

Inductive result (A : Type) : Type :=
| Ok (a : A)
| Err (e : exn).
Arguments Ok {A} a.
Arguments Err {A} e.

Definition bind {A B} (m : result A) (f : A -> result B) : result B :=
  match m with
  | Ok a => f a
  | Err e => Err e
  end.

Notation "x <- m ;; k" := (bind m (fun x => k))
  (at level 61, m at next level, right associativity).

Definition raise {A} (e : exn) : result A := Err e.

Fixpoint mapM {A B} (f : A -> result B) (l : list A) : result (list B) :=
  match l with
  | [] => Ok []
  | x :: r => y <- f x ;; ys <- mapM f r ;; Ok (y :: ys)
  end.

(** A Python [dict] with string keys: an association list in insertion
    order. *)
Definition dict (V : Type) := list (string * V).

Fixpoint dict_get {V} (d : dict V) (k : string) : option V :=
  match d with
  | [] => None
  | (k', v) :: r => if String.eqb k k' then Some v else dict_get r k
  end.

Definition dict_keys {V} (d : dict V) : list string := map fst d.

Definition py_in (k : string) (l : list string) : bool :=
  existsb (String.eqb k) l.

(** A Python generator: it stops, raises, or yields a value and goes on. *)
CoInductive gen (A : Type) : Type :=
| GStop
| GRaise (e : exn)
| GYield (x : A) (rest : gen A).
Arguments GStop {A}.
Arguments GRaise {A} e.
Arguments GYield {A} x rest.

Definition StopIteration : exn := mk_exn "StopIteration" "".

(** [next(it)] on a fresh generator. *)
Definition py_next {A} (g : gen A) : result A :=
  match g with
  | GStop => raise StopIteration
  | GRaise e => raise e
  | GYield x _ => Ok x
  end.

(* ------------------------------------------------------------------ *)
(** ** utils/consts/data_vars.py *)

Module DataVars.

(** A one-dimensional [xr.DataArray] over the [channel] coordinate. *)
Definition ChannelArray := dict Q.

(** Binary floating-point rounding of a rational: round to nearest,
    ties to even, to a [prec]-bit significand, with exponents down to
    [emin] (the subnormal range); overflow to infinity is not modelled,
    every value of the tables being far below it. *)
Definition floor_log2 (q : Q) : Z :=
  let a := (Z.log2 (Qnum q) - Z.log2 (Zpos (Qden q)))%Z in
  if Qle_bool (Qpower (2#1) a) q then a else (a - 1)%Z.

Definition round_half_even (m : Q) : Z :=
  let f := Qfloor m in
  match Qcompare (m - inject_Z f) (1#2) with
  | Lt => f
  | Gt => (f + 1)%Z
  | Eq => if Z.even f then f else (f + 1)%Z
  end.

Definition round_binary (prec emin : Z) (q : Q) : Q :=
  if Qeq_bool q 0 then 0%Q else
  let a := Qabs q in
  let e := Z.max (floor_log2 a - (prec - 1)) emin in
  let r := (inject_Z (round_half_even (a * Qpower (2#1) (- e))) * Qpower (2#1) e)%Q in
  if Qle_bool 0 q then r else (- r)%Q.

(** A Python float literal (binary64), and [np.float32] of a Python
    float (binary32). *)
Definition round_float64 : Q -> Q := round_binary 53 (-1074).
Definition round_float32 : Q -> Q := round_binary 24 (-149).

(** [_to_data_array]: the keys become the [channel] coordinate, in order;
    the values are the dictionary's Python floats cast by
    [.astype(np.float32)]. The dictionaries below hold the decimal
    literals of the source, so each value is first rounded to binary64. *)
Definition to_data_array (d : dict Q) : ChannelArray :=
  map (fun k => (k, match dict_get d k with
                    | Some v => round_float32 (round_float64 v)
                    | None => 0%Q end))
      (dict_keys d).

(** [da.sel(channel=c)]: a [KeyError] when [c] is not a coordinate
    (xarray's [PandasIndex.sel] re-raises the [KeyError] of [get_loc]). *)
Definition sel_channel (da : ChannelArray) (c : string) : result Q :=
  match dict_get da c with
  | Some v => Ok v
  | None => raise (KeyError ("not all values found in index 'channel'. "
                             ++ "Try setting the `method` keyword argument "
                             ++ "(example: method='nearest')."))
  end.

Definition NWP_PROVIDERS : list string :=
  ["ukv"; "gfs"; "icon-eu"; "icon-global"; "ecmwf"].

(** [NWPStatDict.__getitem__]. *)
Definition NWPStatDict_getitem {V} (self : dict V) (key : string) : result V :=
  match dict_get self key with
  | Some v => Ok v
  | None =>
      if py_in key NWP_PROVIDERS
      then raise (KeyError ("Values for " ++ key ++ " not yet available in ocf-datapipes"))
      else raise (KeyError key)
  end.

Local Open Scope Q_scope.

Definition UKV_STD_dict : dict Q :=
  [("cdcb", 2126.99350113); ("lcc", 39.33210726); ("mcc", 41.91144559);
   ("hcc", 38.07184418); ("sde", 0.1029753); ("hcct", 18382.63958991);
   ("dswrf", 190.47216887); ("dlwrf", 39.45988077); ("h", 1075.77812282);
   ("t", 4.38818501); ("r", 11.45012499); ("dpt", 4.57250482);
   ("vis", 21578.97975625); ("si10", 3.94718813); ("wdir10", 94.08407495);
   ("prmsl", 1252.71790539); ("prate", 0.00021497)].

Definition UKV_MEAN_dict : dict Q :=
  [("cdcb", 1412.26599062); ("lcc", 50.08362643); ("mcc", 40.88984494);
   ("hcc", 29.11949682); ("sde", 0.00289545); ("hcct", -18345.97478167);
   ("dswrf", 111.28265039); ("dlwrf", 325.03130139); ("h", 2096.51991356);
   ("t", 283.64913206); ("r", 81.79229501); ("dpt", 280.54379901);
   ("vis", 32262.03285118); ("si10", 6.88348448); ("wdir10", 199.41891636);
   ("prmsl", 101321.61574029); ("prate", 3.45793433e-05)].

Definition UKV_VARIABLE_NAMES : list string := dict_keys UKV_MEAN_dict.
Definition UKV_STD : ChannelArray := to_data_array UKV_STD_dict.
Definition UKV_MEAN : ChannelArray := to_data_array UKV_MEAN_dict.

Definition GFS_STD_dict : dict Q :=
  [("t", 5.017000766747606); ("dswrf", 233.1834250473355);
   ("prate", 0.00021690701537950742); ("dlwrf", 46.571);
   ("u", 4.165); ("v", 4.123)].

Definition GFS_MEAN_dict : dict Q :=
  [("t", 285.7799539185846); ("dswrf", 294.6696933986283);
   ("prate", 3.6078121378638696e-05); ("dlwrf", 319);
   ("u", 0.552); ("v", -0.477)].

Definition GFS_VARIABLE_NAMES : list string := dict_keys GFS_MEAN_dict.
Definition GFS_STD : ChannelArray := to_data_array GFS_STD_dict.
Definition GFS_MEAN : ChannelArray := to_data_array GFS_MEAN_dict.

Definition NWP_VARIABLE_NAMES : dict (list string) :=
  [("ukv", UKV_VARIABLE_NAMES); ("gfs", GFS_VARIABLE_NAMES)].
Definition NWP_STDS : dict ChannelArray := [("ukv", UKV_STD); ("gfs", GFS_STD)].
Definition NWP_MEANS : dict ChannelArray := [("ukv", UKV_MEAN); ("gfs", GFS_MEAN)].

(** RSS mean and std. *)
Definition RSS_STD_dict : dict Q :=
  [("HRV", 0.11405209); ("IR_016", 0.21462157); ("IR_039", 0.04618041);
   ("IR_087", 0.06687243); ("IR_097", 0.0468558); ("IR_108", 0.17482725);
   ("IR_120", 0.06115861); ("IR_134", 0.04492306); ("VIS006", 0.12184761);
   ("VIS008", 0.13090034); ("WV_062", 0.16111417); ("WV_073", 0.12924142)].

Definition RSS_MEAN_dict : dict Q :=
  [("HRV", 0.09298719); ("IR_016", 0.17594202); ("IR_039", 0.86167645);
   ("IR_087", 0.7719318); ("IR_097", 0.8014212); ("IR_108", 0.71254843);
   ("IR_120", 0.89058584); ("IR_134", 0.944365); ("VIS006", 0.09633306);
   ("VIS008", 0.11426069); ("WV_062", 0.7359355); ("WV_073", 0.62479186)].

Definition RSS_VARIABLE_NAMES : list string := dict_keys RSS_MEAN_dict.
Definition RSS_STD : ChannelArray := to_data_array RSS_STD_dict.
Definition RSS_MEAN : ChannelArray := to_data_array RSS_MEAN_dict.

(** The normalisation lookup: by source type, then by channel name. *)
Definition stat_lookup (table : dict ChannelArray) (source channel : string)
  : result Q :=
  da <- NWPStatDict_getitem table source ;; sel_channel da channel.

End DataVars.

(* ------------------------------------------------------------------ *)
(** ** select/select_pv_systems_on_capacity.py *)

Module SelectPV.

(** Datapipe streams may be finite or infinite. *)
CoInductive colist (A : Type) : Type :=
| conil
| cocons (x : A) (rest : colist A).
Arguments conil {A}.
Arguments cocons {A} x rest.

CoInductive bisim {A} : colist A -> colist A -> Prop :=
| bisim_nil : bisim conil conil
| bisim_cons x l1 l2 : bisim l1 l2 -> bisim (cocons x l1) (cocons x l2).

Definition colist_unfold {A} (l : colist A) : colist A :=
  match l with conil => conil | cocons x r => cocons x r end.

(** [np.inf] or a finite number. *)
Inductive capacity := Finite (w : Q) | Inf.

Record SelectPVSystemsOnCapacityIterDataPipe (A : Type) := {
  source_datapipe : colist A;
  min_capacity_watts : capacity;
  max_capaciity_watts : capacity
}.
Arguments source_datapipe {A} _.

Definition default_min_capacity_watts : capacity := Finite 0.
Definition default_max_capacity_watts : capacity := Inf.

(** [for xr_data in self.source_datapipe: yield xr_data] *)
CoFixpoint iter_source {A} (src : colist A) : colist A :=
  match src with
  | conil => conil
  | cocons xr_data rest => cocons xr_data (iter_source rest)
  end.

Definition iter {A} (self : SelectPVSystemsOnCapacityIterDataPipe A) : colist A :=
  iter_source (source_datapipe self).

End SelectPV.

(* ------------------------------------------------------------------ *)
(** ** load/nwp/gfs.py: [open_gfs] *)

Module GFS.

(** One grid value of a float array: [None] is NaN. *)
Definition value := option Q.

(** What [xr.open_mfdataset] / [xr.load_dataset] return, at one
    latitude/longitude cell: the [time] coordinate (minutes since the
    epoch), the [step] coordinate (minutes), whether the [valid_time]
    coordinate is present, and the data variables indexed [time][step]. *)
Record RawDataset := {
  raw_time : list Z;
  raw_step : list Z;
  raw_has_valid_time : bool;
  raw_vars : dict (list (list value))
}.

(** The [xr.DataArray] built by [open_gfs], indexed
    [channel][init_time_utc][step] (the transposes only reorder dimension
    names; every value is addressed by its labels). *)
Record DataArray := {
  da_init_time : list Z;
  da_step : list Z;
  da_channel : list string;
  da_has_valid_time : bool;
  da_values : list (list (list value))
}.

(** A store as the array library holds it: every data variable has one
    row per [time] label and one value per [step] label. *)
Definition well_formed (raw : RawDataset) : bool :=
  forallb (fun '(_, a) =>
             Nat.eqb (List.length a) (List.length (raw_time raw)) &&
             forallb (fun row => Nat.eqb (List.length row) (List.length (raw_step raw))) a)
          (raw_vars raw).

Definition gfs_value (da : DataArray) (k i j : nat) : value :=
  nth j (nth i (nth k (da_values da) []) []) None.

(** [e in s] for a one-character string [e]. *)
Definition has_star (s : string) : bool :=
  existsb (fun c => Ascii.eqb c "*"%char) (list_ascii_of_string s).

(** ---- xarray / pandas primitives used by [open_gfs] ---- *)

(** Stable insertion by [step], the [sortby] that [interp] performs first. *)
Fixpoint insert_by_step (p : Z * value) (l : list (Z * value)) : list (Z * value) :=
  match l with
  | [] => [p]
  | q :: r => if (fst p <=? fst q)%Z then p :: l else q :: insert_by_step p r
  end.

Definition sortby_step (l : list (Z * value)) : list (Z * value) :=
  fold_right insert_by_step [] l.

(** [np.searchsorted(xs, x, side='left')] on a sorted [xs]. *)
Fixpoint searchsorted_left (xs : list Z) (x : Z) : nat :=
  match xs with
  | [] => 0
  | y :: r => if (y <? x)%Z then S (searchsorted_left r x) else 0
  end.

(** [scipy.interpolate.interp1d(xs, ys, kind='linear', bounds_error=False,
    fill_value=nan)(x)] on points sorted by [x] (as [_call_linear] with
    the out-of-bounds fill). *)
Definition interp1d_linear (pts : list (Z * value)) (x : Z) : result value :=
  let xs := map fst pts in
  let n := List.length pts in
  match pts with
  | [] => raise (ValueError "x and y arrays must have at least 1 entries")
  | (x0, _) :: _ =>
      if ((x <? x0)%Z || (last xs x0 <? x)%Z)%bool then Ok None
      else
        let hi := Nat.min (Nat.max (searchsorted_left xs x) 1) (n - 1)%nat in
        let lo := if Nat.eqb hi 0 then (n - 1)%nat else (hi - 1)%nat in
        let '(xlo, ylo) := nth lo pts (0%Z, None) in
        let '(xhi, yhi) := nth hi pts (0%Z, None) in
        match ylo, yhi with
        | Some a, Some b =>
            if Z.eqb xhi xlo then Ok None
            else Ok (Some (a + inject_Z (x - xlo) * (b - a) / inject_Z (xhi - xlo))%Q)
        | _, _ => Ok None
        end
  end.

Fixpoint non_decreasing (l : list Z) : bool :=
  match l with
  | x :: ((y :: _) as r) => (x <=? y)%Z && non_decreasing r
  | _ => true
  end.

Fixpoint is_unique (l : list Z) : bool :=
  match l with
  | [] => true
  | x :: r => negb (existsb (Z.eqb x) r) && is_unique r
  end.

(** [np.searchsorted(idx, g, side='right')] on a sorted index: the number
    of labels [<= g]; the pad indexer is one less, or missing (-1). *)
Definition count_le (idx : list Z) (g : Z) : nat :=
  List.length (filter (fun x => (x <=? g)%Z) idx).

Definition pad_indexer (idx : list Z) (g : Z) : option nat :=
  match count_le idx g with
  | O => None
  | S k => Some k
  end.

(** The labels [start, start + 60, ...] up to [last]. *)
Definition hourly_labels (start last : Z) : list Z :=
  if (last <? start)%Z then []
  else map (fun k => start + 60 * Z.of_nat k)%Z
           (seq 0 (S (Z.to_nat ((last - start) / 60)))).

(** The [full_index] of [resample(<datetime dim>="60T")]: bins anchored at
    midnight ([origin='start_day']), from the hour of the first label to
    the hour of the last one. *)
Definition datetime_full_index (idx : list Z) : list Z :=
  match idx with
  | [] => []
  | x :: _ => hourly_labels (60 * (x / 60))%Z (last idx x)
  end.

(** The [full_index] of [resample(<timedelta dim>="60T")]:
    [timedelta_range(start=min, end=max, freq)]. *)
Definition timedelta_full_index (idx : list Z) : list Z :=
  match idx with
  | [] => []
  | x :: _ => hourly_labels x (last idx x)
  end.

(** [obj.resample(dim="60T").pad()] along [dim]: the monotonicity check
    of resampling; the group bins, whose [sbins[-1]] raises on an empty
    index; then [reindex(dim=full_index, method='pad')], which needs
    unique labels. [pick] reindexes the data by a pad indexer. *)
Definition resample_pad {D} (dim : string) (full_index : list Z -> list Z) (idx : list Z)
    (pick : (Z -> option nat) -> list Z -> D) : result (list Z * D) :=
  if negb (non_decreasing idx)
  then raise (ValueError "index must be monotonic for resampling")
  else match idx with
  | [] => raise (IndexError "index -1 is out of bounds for axis 0 with size 0")
  | _ :: _ =>
      if negb (is_unique idx)
      then raise (ValueError ("cannot reindex or align along dimension '" ++ dim
                              ++ "' because the (pandas) index has duplicate values"))
      else let fi := full_index idx in Ok (fi, pick (pad_indexer idx) fi)
  end.

(** Picking positions from a list, NaN ([dflt]) where the indexer is
    missing. *)
Definition take_padded {A} (dflt : A) (indexer : Z -> option nat) (l : list A)
    (labels : list Z) : list A :=
  map (fun g => match indexer g with Some i => nth i l dflt | None => dflt end) labels.

(** ---- the steps of [open_gfs] ---- *)

Definition gfs_channels : list string := ["dlwrf"; "t"; "u"; "v"; "prate"].

Definition get_var (nwp : RawDataset) (name : string) : result (list (list value)) :=
  match dict_get (raw_vars nwp) name with
  | Some a => Ok a
  | None => raise (KeyError name)
  end.

(** [xr.concat([nwp["dlwrf"], ...], "channel")], [assign_coords(channel=...)],
    the transposes and the rename of [time] to [init_time_utc]. *)
Definition concat_channels (nwp : RawDataset) : result DataArray :=
  arrs <- mapM (get_var nwp) gfs_channels ;;
  Ok {| da_init_time := raw_time nwp; da_step := raw_step nwp;
        da_channel := gfs_channels; da_has_valid_time := raw_has_valid_time nwp;
        da_values := arrs |}.

(** [nwp.drop('valid_time')] *)
Definition drop_valid_time (da : DataArray) : result DataArray :=
  if da_has_valid_time da
  then Ok {| da_init_time := da_init_time da; da_step := da_step da;
             da_channel := da_channel da; da_has_valid_time := false;
             da_values := da_values da |}
  else raise (ValueError "One or more of the specified variables cannot be found in this dataset").

(** [nwp.interp(step=[pd.Timedelta(hours=0)])]: [interp] sorts by
    [step]; [_localize] looks the target up with
    [get_indexer([0], method='nearest')], which raises on non-unique
    labels, and keeps the labels around it (the bracketing pair of 0 is
    always kept, so the interpolated values are those over the whole
    axis); scipy's [interp1d] then needs at least one [step] label. *)
Definition interp_step0 (da : DataArray) : result DataArray :=
  if negb (is_unique (da_step da))
  then raise (mk_exn "InvalidIndexError" "Reindexing only valid with uniquely valued Index objects")
  else match da_step da with
  | [] => raise (ValueError "x and y arrays must have at least 1 entries")
  | _ :: _ =>
  vals <- mapM (fun ch =>
                  mapM (fun row =>
                          v <- interp1d_linear (sortby_step (combine (da_step da) row)) 0%Z ;;
                          Ok [v]) ch)
               (da_values da) ;;
  Ok {| da_init_time := da_init_time da; da_step := [0%Z];
        da_channel := da_channel da; da_has_valid_time := da_has_valid_time da;
        da_values := vals |}
  end.

(** [xr.concat([a, b], dim='step')] *)
Definition concat_step (a b : DataArray) : DataArray :=
  {| da_init_time := da_init_time a; da_step := (da_step a ++ da_step b)%list;
     da_channel := da_channel a; da_has_valid_time := da_has_valid_time a;
     da_values := map (fun '(ca, cb) => map (fun '(ra, rb) => (ra ++ rb)%list) (combine ca cb))
                      (combine (da_values a) (da_values b)) |}.

(** [nwp.resample(init_time_utc="60T").pad()] *)
Definition resample_init_pad (da : DataArray) : result DataArray :=
  let nan_row := repeat None (List.length (da_step da)) in
  r <- resample_pad "init_time_utc" datetime_full_index (da_init_time da)
         (fun ix fi => map (fun ch => take_padded nan_row ix ch fi) (da_values da)) ;;
  let '(fi, vals) := r in
  Ok {| da_init_time := fi; da_step := da_step da;
        da_channel := da_channel da; da_has_valid_time := da_has_valid_time da;
        da_values := vals |}.

(** [nwp.resample(step="60T").pad()] *)
Definition resample_step_pad (da : DataArray) : result DataArray :=
  r <- resample_pad "step" timedelta_full_index (da_step da)
         (fun ix fi => map (map (fun row => take_padded None ix row fi)) (da_values da)) ;;
  let '(fi, vals) := r in
  Ok {| da_init_time := da_init_time da; da_step := fi;
        da_channel := da_channel da; da_has_valid_time := da_has_valid_time da;
        da_values := vals |}.

Section OpenGFS.

(** The two array-library readers; each may raise. *)
Variable open_mfdataset : string -> result RawDataset.
Variable load_dataset : string -> result RawDataset.

Definition open_store (zarr_path : string) : result RawDataset :=
  if has_star zarr_path then open_mfdataset zarr_path else load_dataset zarr_path.

Definition open_gfs (zarr_path : string) : result DataArray :=
  nwp <- open_store zarr_path ;;
  nwp <- concat_channels nwp ;;
  nwp <- drop_valid_time nwp ;;
  nwp_step0 <- interp_step0 nwp ;;
  let nwp := concat_step nwp_step0 nwp in
  nwp <- resample_init_pad nwp ;;
  resample_step_pad nwp.

End OpenGFS.

(** The forward-fill reading of the spec: the value of the latest
    available sample at or before [t] on the issuance axis and at or
    before [s] on the step axis, NaN if there is none. *)
Fixpoint prior_from (xs : list Z) (g : Z) (i : nat) (acc : option nat) : option nat :=
  match xs with
  | [] => acc
  | x :: r => prior_from r g (S i) (if (x <=? g)%Z then Some i else acc)
  end.

Definition prior_sample (xs : list Z) (g : Z) : option nat := prior_from xs g 0 None.

Definition most_recent_prior (raw : RawDataset) (name : string) (t s : Z) : value :=
  match dict_get (raw_vars raw) name, prior_sample (raw_time raw) t,
        prior_sample (raw_step raw) s with
  | Some arr, Some i, Some j => nth j (nth i arr []) None
  | _, _, _ => None
  end.

End GFS.

(* ------------------------------------------------------------------ *)
(** ** training/metnet_national.py: [metnet_national_datapipe] *)

Module MetNet.

(** The part of the [Configuration] the function reads; durations are
    minutes. *)
Record GSPConfig := { gsp_zarr_path : string; gsp_history_minutes : Z; gsp_forecast_minutes : Z }.
Record NWPConfig := { nwp_zarr_path : string; nwp_history_minutes : Z; nwp_forecast_minutes : Z }.
Record SatelliteConfig := { satellite_zarr_path : string; satellite_history_minutes : Z }.
Record HRVSatelliteConfig := { hrvsatellite_zarr_path : string; hrvsatellite_history_minutes : Z }.
Record PVFiles := { pv_filename : string; pv_metadata_filename : string }.
Record PVConfig := { pv_files_groups : list PVFiles; pv_history_minutes : Z }.
Record InputData := {
  gsp : GSPConfig; nwp : NWPConfig; satellite : SatelliteConfig;
  hrvsatellite : HRVSatelliteConfig; pv : PVConfig }.
Record Process := { n_train_batches : Z; n_validation_batches : Z }.
Record Configuration := { input_data : InputData; process : Process }.

(** The two normalisations used: a function of the data, or per-channel
    mean/std tables (named by the constants passed). *)
Inductive Normalizer :=
| NormalizeFn
| MeanStd (mean std : string).

(** The lazy datapipe graph: one constructor per datapipe the function
    instantiates, with the arguments it passes. [Fork p n i] is the
    [i]-th of the [n] outputs of [p.fork(n)]: every child replays every
    element of [p]. [time_dim = None] is the default time dimension. *)
#[warnings="-register-all"]
Inductive Datapipe :=
| OpenGSP (gsp_pv_power_zarr_path : string)
| OpenNWP (zarr_path : string)
| OpenSatellite (zarr_path : string)
| OpenPVFromNetCDF (pv_power_filename pv_metadata_filename : string)
| DropGSP (src : Datapipe) (gsps_to_keep : list Z)
| LocationPicker (src : Datapipe)
| Fork (src : Datapipe) (n i : nat)
| Normalize (src : Datapipe) (how : Normalizer)
| AddT0IdxAndSamplePeriodDuration (src : Datapipe) (sample_period_duration history_duration : Z)
| GetContiguousTimePeriods (src : Datapipe)
    (sample_period_duration history_duration forecast_duration : Z) (time_dim : option string)
| SelectOverlappingTimeSlice (src : Datapipe) (secondary_datapipes : list Datapipe)
| SelectTimePeriods (src : Datapipe) (time_periods : Datapipe)
| SelectT0Time (src : Datapipe)
| SelectTimeSlice (src : Datapipe) (t0_datapipe : Datapipe)
    (history_duration forecast_duration sample_period_duration : Z)
| ConvertToNWPTargetTime (src : Datapipe) (t0_datapipe : Datapipe)
    (sample_period_duration history_duration forecast_duration : Z)
| CreatePVImage (src : Datapipe) (image_datapipe : Datapipe) (normalize : bool)
    (max_num_pv_systems : Z)
| PreProcessMetNet (modalities : list Datapipe) (location_datapipe : Datapipe)
    (center_width center_height context_height context_width
     output_width_pixels output_height_pixels : Z) (add_sun_features : bool)
| Header (src : Datapipe) (limit : Z)
| Zip (src other : Datapipe).

Definition neq_empty (s : string) : bool := negb (String.eqb s "").

Definition metnet_national_datapipe (configuration : Configuration) (mode : string)
  : result Datapipe :=
  let cfg := input_data configuration in
  (* Check which modalities to use *)
  let use_nwp := neq_empty (nwp_zarr_path (nwp cfg)) in
  pv_group0 <- match pv_files_groups (pv cfg) with
               | g :: _ => Ok g
               | [] => raise (IndexError "list index out of range")
               end ;;
  let use_pv := neq_empty (pv_filename pv_group0) in
  let use_sat := neq_empty (satellite_zarr_path (satellite cfg)) in
  let use_hrv := neq_empty (hrvsatellite_zarr_path (hrvsatellite cfg)) in
  (* Load GSP national data *)
  let gsp_datapipe := OpenGSP (gsp_zarr_path (gsp cfg)) in
  let gsp_dropped := DropGSP gsp_datapipe [0%Z] in
  let gsp_datapipe := Fork gsp_dropped 2 0 in
  let gsp_loc_datapipe := Fork gsp_dropped 2 1 in
  let location_datapipe := LocationPicker gsp_loc_datapipe in
  let gsp_t0_added :=
    AddT0IdxAndSamplePeriodDuration (Normalize gsp_datapipe NormalizeFn)
      30 (gsp_history_minutes (gsp cfg)) in
  let gsp_datapipe := Fork gsp_t0_added 3 0 in
  let gsp_time_periods_datapipe := Fork gsp_t0_added 3 1 in
  let gsp_t0_datapipe := Fork gsp_t0_added 3 2 in
  let gsp_time_periods_datapipe :=
    GetContiguousTimePeriods gsp_time_periods_datapipe 30
      (gsp_history_minutes (gsp cfg)) (gsp_forecast_minutes (gsp cfg)) None in
  (* Load NWP data *)
  let nwp_added :=
    AddT0IdxAndSamplePeriodDuration (OpenNWP (nwp_zarr_path (nwp cfg)))
      60 (nwp_history_minutes (nwp cfg)) in
  let nwp_datapipe := Fork nwp_added 2 0 in
  let nwp_time_periods_datapipe :=
    GetContiguousTimePeriods (Fork nwp_added 2 1) 60
      (nwp_history_minutes (nwp cfg)) (nwp_forecast_minutes (nwp cfg))
      (Some "init_time_utc") in
  let sat_added :=
    AddT0IdxAndSamplePeriodDuration (OpenSatellite (satellite_zarr_path (satellite cfg)))
      5 (satellite_history_minutes (satellite cfg)) in
  let sat_datapipe := Fork sat_added 2 0 in
  let sat_time_periods_datapipe :=
    GetContiguousTimePeriods (Fork sat_added 2 1) 5
      (satellite_history_minutes (satellite cfg)) 1 None in
  let hrv_added :=
    AddT0IdxAndSamplePeriodDuration
      (OpenSatellite (hrvsatellite_zarr_path (hrvsatellite cfg)))
      5 (hrvsatellite_history_minutes (hrvsatellite cfg)) in
  let sat_hrv_datapipe := Fork hrv_added 2 0 in
  let sat_hrv_time_periods_datapipe :=
    GetContiguousTimePeriods (Fork hrv_added 2 1) 5
      (hrvsatellite_history_minutes (hrvsatellite cfg)) 1 None in
  let pv_opened :=
    OpenPVFromNetCDF (pv_filename pv_group0) (pv_metadata_filename pv_group0) in
  let pv_added :=
    AddT0IdxAndSamplePeriodDuration (Fork pv_opened 2 0) 5 (pv_history_minutes (pv cfg)) in
  let pv_datapipe := Fork pv_added 2 0 in
  let pv_time_periods_datapipe :=
    GetContiguousTimePeriods (Fork pv_added 2 1) 5 (pv_history_minutes (pv cfg)) 1 None in
  let secondary_datapipes :=
    ((if use_nwp then [nwp_time_periods_datapipe] else []) ++
     (if use_sat then [sat_time_periods_datapipe] else []) ++
     (if use_hrv then [sat_hrv_time_periods_datapipe] else []) ++
     (if use_pv then [pv_time_periods_datapipe] else []))%list in
  (* find joint overlapping timer periods *)
  let overlapping_datapipe :=
    SelectOverlappingTimeSlice gsp_time_periods_datapipe secondary_datapipes in
  let gsp_time_periods := Fork overlapping_datapipe 5 0 in
  let gsp_t0_datapipe := SelectTimePeriods gsp_t0_datapipe gsp_time_periods in
  (* select t0 periods *)
  let t0 := SelectT0Time gsp_t0_datapipe in
  let gsp_t0_datapipe := Fork t0 5 0 in
  let nwp_t0_datapipe := Fork t0 5 1 in
  let sat_t0_datapipe := Fork t0 5 2 in
  let sat_hrv_t0_datapipe := Fork t0 5 3 in
  let pv_t0_datapipe := Fork t0 5 4 in
  let gsp_datapipe :=
    SelectTimeSlice gsp_datapipe gsp_t0_datapipe 0 (gsp_forecast_minutes (gsp cfg)) 30 in
  let nwp_datapipe :=
    Normalize (ConvertToNWPTargetTime nwp_datapipe nwp_t0_datapipe 60
                 (nwp_history_minutes (nwp cfg)) (nwp_forecast_minutes (nwp cfg)))
              (MeanStd "NWP_MEAN" "NWP_STD") in
  let sat_datapipe :=
    Normalize (SelectTimeSlice sat_datapipe sat_t0_datapipe
                 (satellite_history_minutes (satellite cfg)) 0 5)
              (MeanStd "SAT_MEAN_DA" "SAT_STD_DA") in
  let sat_hrv_datapipe :=
    Normalize (SelectTimeSlice sat_hrv_datapipe sat_hrv_t0_datapipe
                 (hrvsatellite_history_minutes (hrvsatellite cfg)) 0 5)
              (MeanStd "SAT_MEAN[HRV]" "SAT_STD[HRV]") in
  (* the PV image takes a fork of the first of sat, HRV, NWP in use;
     with none of them, [image_datapipe] is never bound *)
  let image_source :=
    if use_sat then Some sat_datapipe
    else if use_hrv then Some sat_hrv_datapipe
    else if use_nwp then Some nwp_datapipe else None in
  let sat_datapipe := if (use_pv && use_sat)%bool then Fork sat_datapipe 2 0 else sat_datapipe in
  let sat_hrv_datapipe :=
    if (use_pv && negb use_sat && use_hrv)%bool then Fork sat_hrv_datapipe 2 0
    else sat_hrv_datapipe in
  let nwp_datapipe :=
    if (use_pv && negb use_sat && negb use_hrv && use_nwp)%bool then Fork nwp_datapipe 2 0
    else nwp_datapipe in
  pv_datapipe <-
    (if use_pv then
       match image_source with
       | Some img =>
           Ok (CreatePVImage
                 (SelectTimeSlice pv_datapipe pv_t0_datapipe (pv_history_minutes (pv cfg)) 0 5)
                 (Fork img 2 1) true 100)
       | None =>
           raise (UnboundLocalError
                    "local variable 'image_datapipe' referenced before assignment")
       end
     else Ok pv_datapipe) ;;
  (* Now combine in the MetNet format *)
  let modalities :=
    ((if use_nwp then [nwp_datapipe] else []) ++
     (if use_hrv then [sat_hrv_datapipe] else []) ++
     (if use_sat then [sat_datapipe] else []) ++
     (if use_pv then [pv_datapipe] else []))%list in
  let combined_datapipe :=
    PreProcessMetNet modalities location_datapipe
      500000 1000000 10000000 10000000 256 256 true in
  let combined_datapipe :=
    if String.eqb mode "train" then Header combined_datapipe (n_train_batches (process configuration))
    else if String.eqb mode "val" then Header combined_datapipe (n_validation_batches (process configuration))
    else combined_datapipe in
  Ok (Zip combined_datapipe gsp_datapipe).

(** ---- Reading the graph ---- *)

(** The stages a datapipe applies along its data input, in order
    (forks are not stages). *)
Inductive Stage :=
| SOpen | SDrop | SLocation | SNormalize | SAddT0 | SContiguous | SIntersect
| SSelectPeriods | SSelectT0 | SSlice | SCreatePVImage (normalize : bool)
| SPreProcess | SHeader | SZip.

Fixpoint data_chain (p : Datapipe) : list Stage :=
  match p with
  | OpenGSP _ | OpenNWP _ | OpenSatellite _ | OpenPVFromNetCDF _ _ => [SOpen]
  | DropGSP q _ => data_chain q ++ [SDrop]
  | LocationPicker q => data_chain q ++ [SLocation]
  | Fork q _ _ => data_chain q
  | Normalize q _ => data_chain q ++ [SNormalize]
  | AddT0IdxAndSamplePeriodDuration q _ _ => data_chain q ++ [SAddT0]
  | GetContiguousTimePeriods q _ _ _ _ => data_chain q ++ [SContiguous]
  | SelectOverlappingTimeSlice q _ => data_chain q ++ [SIntersect]
  | SelectTimePeriods q _ => data_chain q ++ [SSelectPeriods]
  | SelectT0Time q => data_chain q ++ [SSelectT0]
  | SelectTimeSlice q _ _ _ _ => data_chain q ++ [SSlice]
  | ConvertToNWPTargetTime q _ _ _ _ => data_chain q ++ [SSlice]
  | CreatePVImage q _ b _ => data_chain q ++ [SCreatePVImage b]
  | PreProcessMetNet _ _ _ _ _ _ _ _ _ => [SPreProcess]
  | Header q _ => data_chain q ++ [SHeader]
  | Zip q _ => data_chain q ++ [SZip]
  end%list.

(** Every [SNormalize] of a chain comes after some [SSlice]. *)
Fixpoint normalized_after_slice_from (seen_slice : bool) (c : list Stage) : bool :=
  match c with
  | [] => true
  | SNormalize :: r => seen_slice && normalized_after_slice_from seen_slice r
  | SSlice :: r => normalized_after_slice_from true r
  | _ :: r => normalized_after_slice_from seen_slice r
  end.

Definition normalized_after_slice (c : list Stage) : bool :=
  normalized_after_slice_from false c.

(** The pieces of the returned [Zip combined gsp]. *)
Definition label_of (r : Datapipe) : option Datapipe :=
  match r with Zip _ g => Some g | _ => None end.

Definition modalities_of (r : Datapipe) : list Datapipe :=
  match r with
  | Zip (Header (PreProcessMetNet ms _ _ _ _ _ _ _ _) _) _
  | Zip (PreProcessMetNet ms _ _ _ _ _ _ _ _) _ => ms
  | _ => []
  end.

(** All nodes of a graph, with sharing unfolded. *)
Fixpoint nodes (p : Datapipe) : list Datapipe :=
  p :: match p with
       | OpenGSP _ | OpenNWP _ | OpenSatellite _ | OpenPVFromNetCDF _ _ => []
       | DropGSP q _ | LocationPicker q | Fork q _ _ | Normalize q _
       | AddT0IdxAndSamplePeriodDuration q _ _ | GetContiguousTimePeriods q _ _ _ _
       | SelectT0Time q | Header q _ => nodes q
       | SelectOverlappingTimeSlice q qs =>
           nodes q ++ (fix go (l : list Datapipe) : list Datapipe :=
                         match l with [] => [] | x :: r => nodes x ++ go r end) qs
       | SelectTimePeriods q t | SelectTimeSlice q t _ _ _
       | ConvertToNWPTargetTime q t _ _ _ | CreatePVImage q t _ _ | Zip q t =>
           nodes q ++ nodes t
       | PreProcessMetNet qs l _ _ _ _ _ _ _ =>
           (fix go (l : list Datapipe) : list Datapipe :=
              match l with [] => [] | x :: r => nodes x ++ go r end) qs ++ nodes l
       end%list.

(** The slice extractions of a graph: (data input, anchor input). *)
Definition slice_of (p : Datapipe) : option (Datapipe * Datapipe) :=
  match p with
  | SelectTimeSlice q t _ _ _ | ConvertToNWPTargetTime q t _ _ _ => Some (q, t)
  | _ => None
  end.

Fixpoint filter_some {A B} (f : A -> option B) (l : list A) : list B :=
  match l with
  | [] => []
  | x :: r => match f x with Some y => y :: filter_some f r | None => filter_some f r end
  end.

Definition slice_nodes (p : Datapipe) : list (Datapipe * Datapipe) :=
  filter_some slice_of (nodes p).

Definition overlap_of (p : Datapipe) : option (Datapipe * list Datapipe) :=
  match p with
  | SelectOverlappingTimeSlice q qs => Some (q, qs)
  | _ => None
  end.

Definition overlap_nodes (p : Datapipe) : list (Datapipe * list Datapipe) :=
  filter_some overlap_of (nodes p).

(** The store a branch reads, following its data input. *)
Inductive Leaf :=
| LGSP (path : string) | LNWP (path : string) | LSatellite (path : string)
| LPV (power metadata : string).

Fixpoint leaf_of (p : Datapipe) : option Leaf :=
  match p with
  | OpenGSP s => Some (LGSP s)
  | OpenNWP s => Some (LNWP s)
  | OpenSatellite s => Some (LSatellite s)
  | OpenPVFromNetCDF a b => Some (LPV a b)
  | DropGSP q _ | LocationPicker q | Fork q _ _ | Normalize q _
  | AddT0IdxAndSamplePeriodDuration q _ _ | GetContiguousTimePeriods q _ _ _ _
  | SelectOverlappingTimeSlice q _ | SelectTimePeriods q _ | SelectT0Time q
  | SelectTimeSlice q _ _ _ _ | ConvertToNWPTargetTime q _ _ _ _
  | CreatePVImage q _ _ _ | Header q _ | Zip q _ => leaf_of q
  | PreProcessMetNet _ _ _ _ _ _ _ _ _ => None
  end.

Definition is_contiguous_periods (p : Datapipe) : bool :=
  match p with GetContiguousTimePeriods _ _ _ _ _ => true | _ => false end.

(** The anchor a slice node reads at example [k], given the stream
    [anchor q] yielded by each node [q]: a fork replays its source. *)
Definition anchor_read (anchor : Datapipe -> nat -> Z) (t0 : Datapipe) (k : nat) : Z :=
  match t0 with
  | Fork q _ _ => anchor q k
  | q => anchor q k
  end.

(** The time-period input of each [select_time_periods] node. *)
Definition periods_of (p : Datapipe) : option Datapipe :=
  match p with SelectTimePeriods _ tp => Some tp | _ => None end.

Definition periods_nodes (p : Datapipe) : list Datapipe :=
  filter_some periods_of (nodes p).

(** The anchor-selection nodes of a graph. *)
Definition t0_of (p : Datapipe) : option Datapipe :=
  match p with SelectT0Time _ => Some p | _ => None end.

Definition t0_nodes (p : Datapipe) : list Datapipe :=
  filter_some t0_of (nodes p).

(** The optional modalities a configuration turns on, read as the spec
    says: those whose configured data path is a non-empty string, in the
    order NWP, satellite, HRV, PV, each named by the store it reads. *)
Definition active_optional_leaves (cfg : Configuration) : list (option Leaf) :=
  let c := input_data cfg in
  ((if String.eqb (nwp_zarr_path (nwp c)) "" then []
    else [Some (LNWP (nwp_zarr_path (nwp c)))]) ++
   (if String.eqb (satellite_zarr_path (satellite c)) "" then []
    else [Some (LSatellite (satellite_zarr_path (satellite c)))]) ++
   (if String.eqb (hrvsatellite_zarr_path (hrvsatellite c)) "" then []
    else [Some (LSatellite (hrvsatellite_zarr_path (hrvsatellite c)))]) ++
   match pv_files_groups (pv c) with
   | g :: _ => if String.eqb (pv_filename g) "" then []
               else [Some (LPV (pv_filename g) (pv_metadata_filename g))]
   | [] => []
   end)%list.


(** ---- More readers of the returned graph ---- *)

(** The [create_pv_image] nodes: (image input, [normalize],
    [max_num_pv_systems]). *)
Definition pv_image_of (p : Datapipe) : option (Datapipe * bool * Z) :=
  match p with
  | CreatePVImage _ img b n => Some (img, b, n)
  | _ => None
  end.

Definition pv_image_nodes (r : Datapipe) : list (Datapipe * bool * Z) :=
  filter_some pv_image_of (nodes r).

(** The children (count, index) of the forks of the intersected periods
    and of the anchor stream that the graph consumes. *)
Definition overlap_fork_child (p : Datapipe) : option (nat * nat) :=
  match p with
  | Fork (SelectOverlappingTimeSlice _ _) n i => Some (n, i)
  | _ => None
  end.

Definition t0_fork_child (p : Datapipe) : option (nat * nat) :=
  match p with
  | Fork (SelectT0Time _) n i => Some (n, i)
  | _ => None
  end.

Definition overlap_fork_children (r : Datapipe) : list (nat * nat) :=
  filter_some overlap_fork_child (nodes r).

Definition t0_fork_children (r : Datapipe) : list (nat * nat) :=
  filter_some t0_fork_child (nodes r).

End MetNet.

(* ------------------------------------------------------------------ *)
(** ** production/xgnational.py *)

Module XGNational.

(** The part of the [Configuration] the function reads. *)
Record GSPConfig := {
  history_minutes : Z; live_interpolate_minutes : Z; live_load_extra_minutes : Z }.
Record NWPConfig := { nwp_zarr_path : string }.
Record InputData := { gsp : GSPConfig; nwp : NWPConfig }.
Record Configuration := { input_data : InputData }.

Section XGNational.

(** The loaded xarray objects. *)
Variable XArray : Type.
(** [load_yaml_configuration], and the generators of [OpenNWP] and of
    [OpenGSPFromDatabase] for the arguments passed. *)
Variable load_yaml_configuration : string -> result Configuration.
Variable OpenNWP_iter : string -> gen XArray.
Variable OpenGSPFromDatabase_iter : Z -> Z -> Z -> bool -> gen XArray.

Definition xgnational_production_datapipe (configuration_filename : string)
  : result (dict XArray) :=
  configuration <- load_yaml_configuration configuration_filename ;;
  let nwp_datapipe := OpenNWP_iter (nwp_zarr_path (nwp (input_data configuration))) in
  let gsp_datapipe :=
    OpenGSPFromDatabase_iter (history_minutes (gsp (input_data configuration)))
      (live_interpolate_minutes (gsp (input_data configuration)))
      (live_load_extra_minutes (gsp (input_data configuration))) true in
  nwp_xr <- py_next nwp_datapipe ;;
  gsp_xr <- py_next gsp_datapipe ;;
  Ok [("nwp", nwp_xr); ("gsp", gsp_xr)].

End XGNational.

End XGNational.

(* ------------------------------------------------------------------ *)
(** ** Configuration loading *)

(** Modelled from the spec: the configuration package
    ([ocf_datapipes.config]: the [Configuration] model and
    [load_yaml_configuration]) and the [OpenConfiguration] datapipe of
    [ocf_datapipes.load] are not in the repository's sources; only their
    callers, [metnet_national_datapipe] (lines 70-72) and
    [xgnational_production_datapipe] (line 35), are. The spec: the
    per-source Cadence Descriptor values (history minutes, forecast
    minutes, sample-period minutes) are "supplied as plain structured
    configuration, validated eagerly at pipeline construction (reject
    negative or non-multiple durations with a ConfigurationError)"; a
    Cadence Descriptor's history and forecast durations "must be
    non-negative and expressible as a whole number of sample_period
    units". Reading and parsing the file stays abstract ([parse]). *)
Module ConfigLoad.

Record Cadence := {
  sample_period_minutes : Z; history_minutes : Z; forecast_minutes : Z }.

(** [d] is a whole number of periods [p]. *)
Definition multiple_of (d p : Z) : bool :=
  if (p =? 0)%Z then (d =? 0)%Z else (d mod p =? 0)%Z.

Definition cadence_valid (c : Cadence) : bool :=
  (0 <=? sample_period_minutes c)%Z && (0 <=? history_minutes c)%Z &&
  (0 <=? forecast_minutes c)%Z &&
  multiple_of (history_minutes c) (sample_period_minutes c) &&
  multiple_of (forecast_minutes c) (sample_period_minutes c).

Definition ConfigurationError (msg : string) : exn := mk_exn "ConfigurationError" msg.

(** Parse, then reject the first invalid cadence descriptor. *)
Definition load_configuration {C} (cadences_of : C -> list (string * Cadence))
    (parse : string -> result C) (filename : string) : result C :=
  c <- parse filename ;;
  match find (fun '(_, d) => negb (cadence_valid d)) (cadences_of c) with
  | Some (name, _) => raise (ConfigurationError ("invalid cadence descriptor for " ++ name))
  | None => Ok c
  end.

(** [OpenConfiguration(filename)]: yields the loaded configuration once. *)
Definition OpenConfiguration_iter {C} (load : string -> result C) (filename : string) : gen C :=
  match load filename with
  | Ok c => GYield c GStop
  | Err e => GRaise e
  end.

(** The national configuration with the sample period of each source. *)
Record NationalDocument := {
  national_configuration : MetNet.Configuration;
  gsp_period : Z; nwp_period : Z; satellite_period : Z;
  hrvsatellite_period : Z; pv_period : Z }.

Definition national_cadences (doc : NationalDocument) : list (string * Cadence) :=
  let cfg := MetNet.input_data (national_configuration doc) in
  [("gsp", {| sample_period_minutes := gsp_period doc;
              history_minutes := MetNet.gsp_history_minutes (MetNet.gsp cfg);
              forecast_minutes := MetNet.gsp_forecast_minutes (MetNet.gsp cfg) |});
   ("nwp", {| sample_period_minutes := nwp_period doc;
              history_minutes := MetNet.nwp_history_minutes (MetNet.nwp cfg);
              forecast_minutes := MetNet.nwp_forecast_minutes (MetNet.nwp cfg) |});
   ("satellite", {| sample_period_minutes := satellite_period doc;
                    history_minutes := MetNet.satellite_history_minutes (MetNet.satellite cfg);
                    forecast_minutes := 0 |});
   ("hrvsatellite", {| sample_period_minutes := hrvsatellite_period doc;
                       history_minutes :=
                         MetNet.hrvsatellite_history_minutes (MetNet.hrvsatellite cfg);
                       forecast_minutes := 0 |});
   ("pv", {| sample_period_minutes := pv_period doc;
             history_minutes := MetNet.pv_history_minutes (MetNet.pv cfg);
             forecast_minutes := 0 |})].

(** [metnet_national_datapipe(configuration_filename, mode)] as a whole:
    lines 70-72 load the configuration, the rest is
    [MetNet.metnet_national_datapipe]. *)
Definition metnet_national_datapipe_from_filename
    (parse : string -> result NationalDocument) (configuration_filename mode : string)
  : result MetNet.Datapipe :=
  let config_datapipe :=
    OpenConfiguration_iter (load_configuration national_cadences parse) configuration_filename in
  configuration <- py_next config_datapipe ;;
  MetNet.metnet_national_datapipe (national_configuration configuration) mode.

(** The XG configuration with the GSP sample period. *)
Record XGDocument := {
  xg_configuration : XGNational.Configuration; xg_gsp_period : Z }.

Definition xg_cadences (doc : XGDocument) : list (string * Cadence) :=
  [("gsp", {| sample_period_minutes := xg_gsp_period doc;
              history_minutes :=
                XGNational.history_minutes (XGNational.gsp (XGNational.input_data (xg_configuration doc)));
              forecast_minutes := 0 |})].

Definition load_yaml_configuration (parse : string -> result XGDocument) (filename : string)
  : result XGNational.Configuration :=
  doc <- load_configuration xg_cadences parse filename ;;
  Ok (xg_configuration doc).

End ConfigLoad.

(* ------------------------------------------------------------------ *)
(** ** Concrete inputs *)

Module Examples.
Import GFS MetNet.

(** A GFS store: issuances at 00:00 and 06:00, lead times 3 h and 6 h. *)
Definition gfs_field : list (list value) :=
  [[Some 1%Q; Some 2%Q]; [Some 3%Q; Some 4%Q]].

Definition gfs_raw : RawDataset := {|
  raw_time := [0; 360]%Z; raw_step := [180; 360]%Z; raw_has_valid_time := true;
  raw_vars := [("dlwrf", gfs_field); ("t", gfs_field); ("u", gfs_field);
               ("v", gfs_field); ("prate", gfs_field)] |}.

Definition gfs_reader (p : string) : result RawDataset := Ok gfs_raw.

Definition empty_da : DataArray := {|
  da_init_time := []; da_step := []; da_channel := []; da_has_valid_time := false;
  da_values := [] |}.

Definition gfs_out : DataArray :=
  match open_gfs gfs_reader gfs_reader "gfs.zarr" with Ok d => d | Err _ => empty_da end.

(** A reader for a store that does not exist. *)
Definition missing_store_reader (p : string) : result RawDataset :=
  Err (mk_exn "FileNotFoundError" "No such file or directory: 'missing.zarr'").

(** A configuration with every modality on; [gsp_hist] and [nwp_hist]
    are the GSP and NWP history minutes. *)
Definition config_all (gsp_hist nwp_hist : Z) : Configuration := {|
  input_data := {|
    gsp := {| gsp_zarr_path := "gsp.zarr"; gsp_history_minutes := gsp_hist;
              gsp_forecast_minutes := 480 |};
    nwp := {| nwp_zarr_path := "nwp.zarr"; nwp_history_minutes := nwp_hist;
              nwp_forecast_minutes := 480 |};
    satellite := {| satellite_zarr_path := "sat.zarr"; satellite_history_minutes := 60 |};
    hrvsatellite := {| hrvsatellite_zarr_path := "hrv.zarr";
                       hrvsatellite_history_minutes := 60 |};
    pv := {| pv_files_groups := [{| pv_filename := "pv.nc";
                                    pv_metadata_filename := "pv_meta.csv" |}];
             pv_history_minutes := 60 |} |};
  process := {| n_train_batches := 100; n_validation_batches := 10 |} |}.

(** Only NWP and PV on. *)
Definition config_nwp_pv : Configuration := {|
  input_data := {|
    gsp := {| gsp_zarr_path := "gsp.zarr"; gsp_history_minutes := 60;
              gsp_forecast_minutes := 480 |};
    nwp := {| nwp_zarr_path := "nwp.zarr"; nwp_history_minutes := 60;
              nwp_forecast_minutes := 480 |};
    satellite := {| satellite_zarr_path := ""; satellite_history_minutes := 60 |};
    hrvsatellite := {| hrvsatellite_zarr_path := ""; hrvsatellite_history_minutes := 60 |};
    pv := {| pv_files_groups := [{| pv_filename := "pv.nc";
                                    pv_metadata_filename := "pv_meta.csv" |}];
             pv_history_minutes := 60 |} |};
  process := {| n_train_batches := 100; n_validation_batches := 10 |} |}.

(** GFS stores: issuance times out of order; lead times starting at 0. *)
Definition gfs_raw_unsorted : RawDataset := {|
  raw_time := [360; 0]%Z; raw_step := [180; 360]%Z; raw_has_valid_time := true;
  raw_vars := raw_vars gfs_raw |}.

Definition gfs_unsorted_reader (p : string) : result RawDataset := Ok gfs_raw_unsorted.

Definition gfs_raw_step0 : RawDataset := {|
  raw_time := [0; 360]%Z; raw_step := [0; 180]%Z; raw_has_valid_time := true;
  raw_vars := raw_vars gfs_raw |}.

Definition gfs_step0_reader (p : string) : result RawDataset := Ok gfs_raw_step0.

(** The pipelines built for [config_all 60 60] and for [config_nwp_pv]
    in training mode ([OpenGSP ""] if the construction failed). *)
Definition national_all : Datapipe :=
  match metnet_national_datapipe (config_all 60 60) "train" with
  | Ok R => R | Err _ => OpenGSP "" end.

Definition national_nwp_pv : Datapipe :=
  match metnet_national_datapipe config_nwp_pv "train" with
  | Ok R => R | Err _ => OpenGSP "" end.

(** A national configuration file whose NWP history (45 minutes) is not a
    whole number of the 60-minute NWP period, and an XG one whose GSP
    history is negative. *)
Definition bad_national_parse (filename : string) : result ConfigLoad.NationalDocument :=
  Ok {| ConfigLoad.national_configuration := config_all 60 45;
        ConfigLoad.gsp_period := 30; ConfigLoad.nwp_period := 60;
        ConfigLoad.satellite_period := 5; ConfigLoad.hrvsatellite_period := 5;
        ConfigLoad.pv_period := 5 |}.

Definition bad_xg_parse (filename : string) : result ConfigLoad.XGDocument :=
  Ok {| ConfigLoad.xg_configuration := {|
          XGNational.input_data := {|
            XGNational.gsp := {| XGNational.history_minutes := -30;
                                 XGNational.live_interpolate_minutes := 60;
                                 XGNational.live_load_extra_minutes := 60 |};
            XGNational.nwp := {| XGNational.nwp_zarr_path := "nwp.zarr" |} |} |};
        ConfigLoad.xg_gsp_period := 30 |}.

End Examples.

(* ================================================================== *)
(** * Proofs *)

(** ** General lemmas on the error monad *)

Lemma bind_ok {A B} (m : result A) (f : A -> result B) (b : B) :
  bind m f = Ok b -> exists a, m = Ok a /\ f a = Ok b.
Proof. destruct m; simpl; [eauto | discriminate]. Qed.

Lemma mapM_Forall2 {A B} (f : A -> result B) l l' :
  mapM f l = Ok l' -> Forall2 (fun x y => f x = Ok y) l l'.
Proof.
  revert l'; induction l as [|x r IH]; simpl; intros l' H.
  - injection H as <-; constructor.
  - apply bind_ok in H as (y & Hy & H); apply bind_ok in H as (ys & Hys & H).
    injection H as <-; constructor; auto.
Qed.

Ltac inv_bind H :=
  let a := fresh "a" in let Ha := fresh "Ha" in
  apply bind_ok in H as (a & Ha & H).

Module GFSFacts.
Import GFS.

(** ** Pad indexing on a sorted index is "latest label at or before". *)

Lemma non_decreasing_cons x r :
  non_decreasing (x :: r) = true -> non_decreasing r = true /\ Forall (fun y => (x <= y)%Z) r.
Proof.
  revert x; induction r as [|y r IH]; intros x H; simpl in *.
  - auto.
  - apply andb_true_iff in H as [Hxy H]; apply Z.leb_le in Hxy.
    destruct (IH y H) as [_ Hf]; split; [exact H|].
    constructor; [lia|]. eapply Forall_impl; [|exact Hf]; simpl; intros; lia.
Qed.

Lemma count_le_above (r : list Z) g :
  Forall (fun y => (g < y)%Z) r -> count_le r g = 0%nat.
Proof.
  unfold count_le; induction 1 as [|y r Hy _ IH]; simpl; [reflexivity|].
  destruct (Z.leb_spec y g); [lia | exact IH].
Qed.

Lemma prior_from_sorted xs g i acc :
  non_decreasing xs = true ->
  prior_from xs g i acc =
  match count_le xs g with O => acc | S k => Some (i + k)%nat end.
Proof.
  revert i acc; induction xs as [|x r IH]; intros i acc H; simpl; [reflexivity|].
  apply non_decreasing_cons in H as [Hr Hf].
  unfold count_le; simpl; fold (count_le r g).
  rewrite (IH (S i) _ Hr).
  destruct (Z.leb_spec x g).
  - simpl; fold (count_le r g). destruct (count_le r g); f_equal; lia.
  - fold (count_le r g); rewrite count_le_above; [reflexivity|].
    eapply Forall_impl; [|exact Hf]; simpl; intros; lia.
Qed.

Lemma prior_sample_pad xs g :
  non_decreasing xs = true -> prior_sample xs g = pad_indexer xs g.
Proof.
  intros H; unfold prior_sample, pad_indexer; rewrite prior_from_sorted by exact H.
  destruct (count_le xs g); reflexivity.
Qed.

(** ** The step-0 column *)

Lemma in_insert_by_step p q l : In q (insert_by_step p l) -> q = p \/ In q l.
Proof.
  induction l as [|a r IH]; simpl; [intuition|].
  destruct (fst p <=? fst a)%Z; simpl; intros [H|H]; auto.
  destruct (IH H); auto.
Qed.

Lemma in_sortby_step q l : In q (sortby_step l) -> In q l.
Proof.
  induction l as [|a r IH]; simpl; [auto|].
  intros H; apply in_insert_by_step in H as [H|H]; auto.
Qed.

(** On positive lead times, interpolating at step 0 is out of bounds. *)
Lemma interp_step0_nan steps row v :
  Forall (fun s => (0 < s)%Z) steps ->
  interp1d_linear (sortby_step (combine steps row)) 0%Z = Ok v -> v = None.
Proof.
  intros Hpos H; unfold interp1d_linear in H.
  destruct (sortby_step (combine steps row)) as [|[x0 y0] r] eqn:E; [discriminate|].
  assert (Hin : In (x0, y0) (combine steps row)).
  { apply in_sortby_step; rewrite E; left; reflexivity. }
  apply in_combine_l in Hin. rewrite Forall_forall in Hpos.
  specialize (Hpos _ Hin).
  replace (0 <? x0)%Z with true in H by (symmetry; apply Z.ltb_lt; exact Hpos).
  simpl in H; injection H as <-; reflexivity.
Qed.

(** ** Value of each stage at a label triple *)

Lemma nth_take_padded {A} (d : A) ix l labels j g :
  nth_error labels j = Some g ->
  nth j (take_padded d ix l labels) d =
  match ix g with Some p => nth p l d | None => d end.
Proof.
  intros H; unfold take_padded.
  revert j H; induction labels as [|a r IH]; intros [|j] H; simpl in *;
    try discriminate.
  - injection H as ->; reflexivity.
  - apply IH, H.
Qed.

Lemma nth_nil_default {A} (n : nat) (d : A) : nth n [] d = d.
Proof. destruct n; reflexivity. Qed.

Lemma nth_repeat_none (n j : nat) : nth j (repeat (None : value) n) None = None.
Proof. revert j; induction n; intros [|j]; simpl; auto. Qed.

Lemma nth_map_out {A B} (f : A -> B) l k d :
  (List.length l <= k)%nat -> nth k (map f l) d = d.
Proof. intros H; apply nth_overflow; rewrite length_map; exact H. Qed.

Lemma nth_map_in {A B} (f : A -> B) l k da db :
  (k < List.length l)%nat -> nth k (map f l) db = f (nth k l da).
Proof.
  intros H; rewrite (nth_indep _ db (f da)) by (rewrite length_map; exact H).
  apply map_nth.
Qed.

Lemma resample_pad_ok {D} dim fi idx (pick : (Z -> option nat) -> list Z -> D) r :
  resample_pad dim fi idx pick = Ok r ->
  non_decreasing idx = true /\ idx <> [] /\ is_unique idx = true /\
  r = (fi idx, pick (pad_indexer idx) (fi idx)).
Proof.
  unfold resample_pad, raise; intros H.
  destruct (non_decreasing idx) eqn:Hnd; [|discriminate].
  destruct idx as [|x l]; [discriminate|].
  destruct (is_unique (x :: l)) eqn:Hu; [|discriminate].
  injection H as <-; repeat split; auto; discriminate.
Qed.

Lemma resample_init_pad_keeps da out :
  resample_init_pad da = Ok out ->
  da_step out = da_step da /\ da_channel out = da_channel da /\
  da_has_valid_time out = da_has_valid_time da /\
  da_init_time out = datetime_full_index (da_init_time da) /\
  List.length (da_values out) = List.length (da_values da) /\
  non_decreasing (da_init_time da) = true /\ da_init_time da <> [] /\
  is_unique (da_init_time da) = true.
Proof.
  unfold resample_init_pad; intros H.
  apply bind_ok in H as ([fi vals] & Hr & H).
  apply resample_pad_ok in Hr as (Hnd & Hne & Hu & Hr).
  injection Hr as -> ->; injection H as <-; simpl.
  rewrite length_map; repeat split; auto.
Qed.

Lemma resample_step_pad_value da out k i j s :
  resample_step_pad da = Ok out ->
  nth_error (da_step out) j = Some s ->
  non_decreasing (da_step da) = true /\ is_unique (da_step da) = true /\
  da_init_time out = da_init_time da /\ da_channel out = da_channel da /\
  gfs_value out k i j =
  match pad_indexer (da_step da) s with Some p => gfs_value da k i p | None => None end.
Proof.
  unfold resample_step_pad; intros H Hj.
  apply bind_ok in H as ([fi vals] & Hr & H).
  apply resample_pad_ok in Hr as (Hnd & _ & Hu & Hr).
  injection Hr as -> ->; injection H as <-; simpl in *.
  split; [exact Hnd|]; split; [exact Hu|]; do 2 (split; [reflexivity|]).
  unfold gfs_value; simpl.
  destruct (Nat.lt_ge_cases k (List.length (da_values da))) as [Hk|Hk].
  2:{ rewrite (nth_map_out _ _ _ _ Hk), (nth_overflow _ _ Hk), !nth_nil_default.
      destruct (pad_indexer _ _); rewrite ?nth_nil_default; auto. }
  rewrite (nth_map_in _ _ _ [] _ Hk).
  set (ch := nth k (da_values da) []).
  destruct (Nat.lt_ge_cases i (List.length ch)) as [Hi|Hi].
  2:{ rewrite (nth_map_out _ _ _ _ Hi), (nth_overflow _ _ Hi), !nth_nil_default.
      destruct (pad_indexer _ _); rewrite ?nth_nil_default; auto. }
  rewrite (nth_map_in _ _ _ [] _ Hi).
  apply nth_take_padded; exact Hj.
Qed.

Lemma resample_init_pad_value da out k i j t :
  resample_init_pad da = Ok out ->
  nth_error (da_init_time out) i = Some t ->
  non_decreasing (da_init_time da) = true /\
  da_step out = da_step da /\ da_channel out = da_channel da /\
  gfs_value out k i j =
  match pad_indexer (da_init_time da) t with Some p => gfs_value da k p j | None => None end.
Proof.
  unfold resample_init_pad; intros H Hi.
  apply bind_ok in H as ([fi vals] & Hr & H).
  apply resample_pad_ok in Hr as (Hnd & _ & Hu & Hr).
  injection Hr as -> ->; injection H as <-; simpl in *.
  split; [exact Hnd|]; do 2 (split; [reflexivity|]).
  unfold gfs_value; simpl.
  destruct (Nat.lt_ge_cases k (List.length (da_values da))) as [Hk|Hk].
  2:{ rewrite (nth_map_out _ _ _ _ Hk), (nth_overflow _ _ Hk), !nth_nil_default.
      destruct (pad_indexer _ _); rewrite ?nth_nil_default; auto. }
  rewrite (nth_map_in _ _ _ [] _ Hk).
  set (ch := nth k (da_values da) []).
  rewrite (nth_indep (take_padded (repeat None (List.length (da_step da)))
             (pad_indexer (da_init_time da)) ch (datetime_full_index (da_init_time da)))
             [] (repeat None (List.length (da_step da)))).
  2:{ unfold take_padded; rewrite length_map. apply nth_error_Some; rewrite Hi; discriminate. }
  rewrite (nth_take_padded _ _ _ _ _ _ Hi).
  destruct (pad_indexer (da_init_time da) t) as [p|].
  - destruct (Nat.lt_ge_cases p (List.length ch)) as [Hp|Hp].
    + rewrite (nth_indep _ _ [] Hp); reflexivity.
    + rewrite (nth_overflow ch _ Hp), (nth_overflow ch [] Hp), nth_nil_default.
      apply nth_repeat_none.
  - apply nth_repeat_none.
Qed.

Lemma concat_step_value s0 nwp k i j :
  Forall2 (Forall2 (fun r r0 => r0 = [None])) (da_values nwp) (da_values s0) ->
  gfs_value (concat_step s0 nwp) k i 0 = None /\
  gfs_value (concat_step s0 nwp) k i (S j) = gfs_value nwp k i j.
Proof.
  unfold gfs_value, concat_step; simpl.
  generalize (da_values nwp) (da_values s0); intros v v0 H.
  revert k; induction H as [|c c0 v v0 Hc _ IH]; intros k.
  - destruct k, i, j; split; reflexivity.
  - destruct k as [|k]; simpl; [|apply IH].
    clear IH; revert i; induction Hc as [|r r0 c c0 Hr _ IH]; intros i.
    + destruct i; simpl; destruct j; split; reflexivity.
    + subst r0; destruct i as [|i]; simpl; [split; reflexivity | apply IH].
Qed.

Lemma interp_step0_inv nwp s0 :
  interp_step0 nwp = Ok s0 ->
  is_unique (da_step nwp) = true /\ da_step nwp <> [] /\
  exists vals,
    mapM (fun ch =>
            mapM (fun row =>
                    v <- interp1d_linear (sortby_step (combine (da_step nwp) row)) 0%Z ;;
                    Ok [v]) ch)
         (da_values nwp) = Ok vals /\
    s0 = {| da_init_time := da_init_time nwp; da_step := [0%Z];
            da_channel := da_channel nwp; da_has_valid_time := da_has_valid_time nwp;
            da_values := vals |}.
Proof.
  unfold interp_step0, raise; intros H.
  destruct (is_unique (da_step nwp)) eqn:Hu; [|discriminate].
  destruct (da_step nwp) as [|z l] eqn:Hs; [discriminate|].
  apply bind_ok in H as (vals & Hv & H); injection H as <-.
  split; [reflexivity|]; split; [discriminate|]; eauto.
Qed.

Lemma interp_step0_value nwp s0 :
  interp_step0 nwp = Ok s0 ->
  Forall (fun s => (0 < s)%Z) (da_step nwp) ->
  Forall2 (Forall2 (fun r r0 => r0 = [None])) (da_values nwp) (da_values s0) /\
  da_step s0 = [0%Z] /\ da_init_time s0 = da_init_time nwp /\ da_channel s0 = da_channel nwp.
Proof.
  intros H Hpos; apply interp_step0_inv in H as (_ & _ & a & Ha & ->); simpl.
  repeat split; auto.
  apply mapM_Forall2 in Ha.
  eapply Forall2_impl; [|exact Ha]; simpl; intros ch ch' Hch.
  apply mapM_Forall2 in Hch.
  eapply Forall2_impl; [|exact Hch]; simpl; intros row r0 Hr.
  inv_bind Hr; injection Hr as <-.
  rewrite (interp_step0_nan _ _ _ Hpos Ha0); reflexivity.
Qed.

Lemma steps_positive l :
  non_decreasing (0%Z :: l) = true -> is_unique (0%Z :: l) = true ->
  Forall (fun s => (0 < s)%Z) l.
Proof.
  intros Hnd Hu; apply non_decreasing_cons in Hnd as [_ Hf].
  simpl in Hu; apply andb_true_iff in Hu as [Hu _].
  apply negb_true_iff in Hu.
  rewrite Forall_forall in *; intros y Hy; specialize (Hf y Hy).
  destruct (Z.eq_dec y 0) as [->|]; [|lia].
  assert (existsb (Z.eqb 0) l = true) by (apply existsb_exists; exists 0%Z; split; auto).
  congruence.
Qed.

Lemma Forall2_nth_error {A B} (R : A -> B -> Prop) l1 l2 k x :
  Forall2 R l1 l2 -> nth_error l1 k = Some x ->
  exists y, nth_error l2 k = Some y /\ R x y.
Proof.
  intros H; revert k; induction H as [|a b l1 l2 Hab _ IH]; intros [|k] Hk;
    simpl in *; try discriminate.
  - injection Hk as ->; eauto.
  - apply IH, Hk.
Qed.

Lemma count_le_zero_pos steps s :
  Forall (fun y => (0 < y)%Z) steps -> (s < 0)%Z -> count_le steps s = 0%nat.
Proof.
  intros H Hs; apply count_le_above.
  eapply Forall_impl; [|exact H]; simpl; intros; lia.
Qed.

Lemma pad_indexer_zero_cons l s :
  Forall (fun y => (0 < y)%Z) l ->
  pad_indexer (0%Z :: l) s = if (0 <=? s)%Z then Some (count_le l s) else None.
Proof.
  intros Hpos; unfold pad_indexer, count_le; simpl.
  destruct (Z.leb_spec 0 s) as [Hs|Hs]; [reflexivity|].
  fold (count_le l s); rewrite (count_le_zero_pos _ _ Hpos Hs); reflexivity.
Qed.

End GFSFacts.

(** ** C1 *)

(** C1: in every successful run, [open_gfs] holds at each point
    (issuance hour [t], lead hour [s]) of its hourly grid, for each
    channel, the value of the latest sample of the store at or before [t]
    on the issuance axis and at or before [s] on the step axis (NaN when
    there is none): both axes are forward-filled. The step-0 column that
    [interp] adds is out of bounds (NaN) whenever the run succeeds, so it
    never contributes an interpolated number. *)
Theorem open_gfs_forward_fills (open_mfdataset load_dataset : string -> result GFS.RawDataset)
    (zarr_path : string) (raw : GFS.RawDataset) (out : GFS.DataArray) :
  GFS.open_store open_mfdataset load_dataset zarr_path = Ok raw ->
  GFS.open_gfs open_mfdataset load_dataset zarr_path = Ok out ->
  forall k name i t j s,
    nth_error (GFS.da_channel out) k = Some name ->
    nth_error (GFS.da_init_time out) i = Some t ->
    nth_error (GFS.da_step out) j = Some s ->
    GFS.gfs_value out k i j = GFS.most_recent_prior raw name t s.
Proof.
  Import GFS GFSFacts.
  intros Hraw H k name i t j s Hk Hi Hj.
  unfold open_gfs in H; rewrite Hraw in H; simpl in H.
  inv_bind H. rename a into a1, Ha into H1.
  inv_bind H. rename a into a2, Ha into H2.
  inv_bind H. rename a into s0, Ha into H3.
  inv_bind H. rename a into a3, Ha into H4.
  (* the step resampling *)
  destruct (resample_step_pad_value _ _ k i j s H Hj)
    as (Hnd3 & Hu3 & Hit3 & Hch3 & Hv3).
  rewrite Hv3; clear Hv3.
  rewrite Hit3 in Hi.
  (* concat_channels and drop_valid_time *)
  unfold concat_channels in H1; inv_bind H1; injection H1 as <-.
  rename a into arrs, Ha into Harrs.
  unfold drop_valid_time in H2; simpl in H2.
  destruct (raw_has_valid_time raw); [|discriminate].
  injection H2 as <-.
  (* the init resampling keeps the steps *)
  assert (Hst3 : da_step a3 = (0%Z :: raw_step raw)).
  { rewrite (proj1 (resample_init_pad_keeps _ _ H4)).
    apply interp_step0_inv in H3 as (_ & _ & a & Ha & ->); reflexivity. }
  rewrite Hst3 in Hnd3, Hu3 |- *.
  pose proof (steps_positive _ Hnd3 Hu3) as Hpos.
  destruct (interp_step0_value _ _ H3 Hpos) as (Hrows & Hs0 & Hit0 & Hch0).
  simpl in Hit0, Hch0.
  assert (Hnds : non_decreasing (raw_step raw) = true)
    by (apply (non_decreasing_cons _ _ Hnd3)).
  (* the channel name and its array *)
  pose proof (mapM_Forall2 _ _ _ Harrs) as Hvars.
  assert (Hch : da_channel a3 = gfs_channels).
  { rewrite (proj1 (proj2 (resample_init_pad_keeps _ _ H4))); simpl; exact Hch0. }
  rewrite Hch3, Hch in Hk.
  destruct (Forall2_nth_error _ _ _ _ _ Hvars Hk) as (arr & Harr & Hget).
  unfold get_var in Hget.
  destruct (dict_get (raw_vars raw) name) as [arr'|] eqn:Hd; [|discriminate].
  injection Hget as <-.
  unfold most_recent_prior; rewrite Hd.
  rewrite (prior_sample_pad _ _ Hnds).
  (* the step indexer on [0 :: raw_step raw] *)
  rewrite (pad_indexer_zero_cons _ _ Hpos).
  destruct (Z.leb_spec 0 s) as [Hs|Hs].
  2:{ unfold pad_indexer; rewrite (count_le_zero_pos _ _ Hpos Hs).
      destruct (prior_sample _ _); reflexivity. }
  (* the init indexer *)
  destruct (resample_init_pad_value _ _ k i (count_le (raw_step raw) s) t H4 Hi)
    as (Hndt & _ & _ & Hv4).
  rewrite Hv4; clear Hv4.
  assert (Hcat : forall X, da_init_time (concat_step s0 X) = raw_time raw)
    by (intros X; unfold concat_step; simpl; exact Hit0).
  rewrite Hcat in Hndt |- *.
  rewrite (prior_sample_pad _ _ Hndt).
  destruct (pad_indexer (raw_time raw) t) as [q|];
    [|destruct (pad_indexer (raw_step raw) s); reflexivity].
  unfold pad_indexer.
  destruct (count_le (raw_step raw) s) as [|m] eqn:Hc.
  - apply (concat_step_value s0 _ k q 0 Hrows).
  - rewrite (proj2 (concat_step_value s0 _ k q m Hrows)).
    unfold gfs_value; simpl.
    rewrite (nth_error_nth _ _ _ Harr); reflexivity.
Qed.

(** ** The national pipeline *)

Module MetNetFacts.
Import MetNet.

(** Case analysis on everything [metnet_national_datapipe] branches on. *)
Ltac build H :=
  unfold metnet_national_datapipe in H;
  match type of H with
  | context [pv_files_groups ?x] => destruct (pv_files_groups x) as [|?g ?gs]; [discriminate|]
  end;
  simpl in H;
  unfold neq_empty in *;
  repeat match type of H with
         | context [String.eqb ?a ?b] =>
             let E := fresh "E" in destruct (String.eqb a b) eqn:E
         end;
  simpl in H; try discriminate; injection H as <-.

End MetNetFacts.

(** C4: in every pipeline the construction returns, the joint-period
    intersection is one node; its primary input is the GSP contiguous
    time periods, and its secondary inputs are contiguous time periods of
    exactly the optional modalities whose configured path is non-empty
    (NWP, satellite, HRV, PV, in that order). *)
Theorem national_intersection_over_active_sources (cfg : MetNet.Configuration)
    (mode : string) (R : MetNet.Datapipe) :
  MetNet.metnet_national_datapipe cfg mode = Ok R ->
  exists primary secondary,
    MetNet.overlap_nodes R <> [] /\
    Forall (fun o => o = (primary, secondary)) (MetNet.overlap_nodes R) /\
    MetNet.leaf_of primary = Some (MetNet.LGSP (MetNet.gsp_zarr_path (MetNet.gsp (MetNet.input_data cfg)))) /\
    forallb MetNet.is_contiguous_periods (primary :: secondary) = true /\
    map MetNet.leaf_of secondary = MetNet.active_optional_leaves cfg.
Proof.
  Import MetNet MetNetFacts.
  intros H; unfold active_optional_leaves.
  destruct cfg as [[[gp gh gf] [np nh nf] [sp sh] [hp hh] [[|g gs] ph]] [ntr nva]];
    build H; simpl in *; rewrite ?E, ?E0, ?E1, ?E2, ?E3, ?E4;
    (eexists; eexists; split; [discriminate|]; split; [repeat constructor|]);
    simpl; auto.
Qed.

(** C3: in every pipeline the construction returns there is one anchor
    selection node [T] ([select_t0_time]); the anchor input of every
    slice extraction is a fork of [T], so at every example [k] each slice
    reads the same anchor, the [k]-th one [T] yields; and slices are taken
    of GSP and of every active optional modality. *)
Theorem national_one_anchor_per_example (cfg : MetNet.Configuration)
    (mode : string) (R : MetNet.Datapipe) :
  MetNet.metnet_national_datapipe cfg mode = Ok R ->
  exists T,
    MetNet.t0_nodes R <> [] /\
    Forall (fun n => n = T) (MetNet.t0_nodes R) /\
    Forall (fun st => exists i, snd st = MetNet.Fork T 5 i) (MetNet.slice_nodes R) /\
    (forall (anchor : MetNet.Datapipe -> nat -> Z) (k : nat),
        Forall (fun st => MetNet.anchor_read anchor (snd st) k = anchor T k)
               (MetNet.slice_nodes R)) /\
    incl (Some (MetNet.LGSP (MetNet.gsp_zarr_path (MetNet.gsp (MetNet.input_data cfg))))
            :: MetNet.active_optional_leaves cfg)
         (map (fun st => MetNet.leaf_of (fst st)) (MetNet.slice_nodes R)).
Proof.
  Import MetNet MetNetFacts.
  intros H; unfold active_optional_leaves.
  destruct cfg as [[[gp gh gf] [np nh nf] [sp sh] [hp hh] [[|g gs] ph]] [ntr nva]];
    build H; simpl in *; rewrite ?E, ?E0, ?E1, ?E2, ?E3, ?E4;
    (eexists; split; [discriminate|]; split; [repeat constructor|]);
    (split; [repeat constructor; eexists; reflexivity|]);
    (split; [intros anchor k; repeat constructor|]);
    intros x Hx; simpl in Hx |- *; intuition.
Qed.

(** C2 (amended): in every pipeline the construction returns, the
    anchor is produced by open GSP, drop, normalise, add t0 index, select
    time periods, select t0; the time periods are the GSP contiguous
    periods intersected with the other sources' contiguous periods (each
    open, add t0 index, contiguous periods); every NWP, satellite and HRV
    modality is opened, slice-extracted and only then normalised, PV is
    opened, slice-extracted and then turned into a normalised image; but
    the GSP target branch is normalised right after it is opened, before
    its slice extraction. *)
Theorem national_stage_order (cfg : MetNet.Configuration) (mode : string)
    (R : MetNet.Datapipe) :
  MetNet.metnet_national_datapipe cfg mode = Ok R ->
  Forall (fun st => MetNet.data_chain (snd st) =
            [MetNet.SOpen; MetNet.SDrop; MetNet.SNormalize; MetNet.SAddT0;
             MetNet.SSelectPeriods; MetNet.SSelectT0]) (MetNet.slice_nodes R) /\
  Forall (fun tp => MetNet.data_chain tp =
            [MetNet.SOpen; MetNet.SDrop; MetNet.SNormalize; MetNet.SAddT0;
             MetNet.SContiguous; MetNet.SIntersect]) (MetNet.periods_nodes R) /\
  Forall (fun o => Forall (fun p => MetNet.data_chain p =
            [MetNet.SOpen; MetNet.SAddT0; MetNet.SContiguous]) (snd o))
         (MetNet.overlap_nodes R) /\
  Forall (fun m => MetNet.data_chain m =
            [MetNet.SOpen; MetNet.SAddT0; MetNet.SSlice; MetNet.SNormalize] \/
          MetNet.data_chain m =
            [MetNet.SOpen; MetNet.SAddT0; MetNet.SSlice; MetNet.SCreatePVImage true])
         (MetNet.modalities_of R) /\
  option_map MetNet.data_chain (MetNet.label_of R) =
    Some [MetNet.SOpen; MetNet.SDrop; MetNet.SNormalize; MetNet.SAddT0; MetNet.SSlice].
Proof.
  Import MetNet MetNetFacts.
  intros H.
  destruct cfg as [[[gp gh gf] [np nh nf] [sp sh] [hp hh] [[|g gs] ph]] [ntr nva]];
    build H; simpl;
    repeat split;
    repeat (apply Forall_cons;
            [simpl; first [reflexivity | left; reflexivity | right; reflexivity
                          | repeat (apply Forall_cons; [reflexivity|]); apply Forall_nil]
            |]);
    try apply Forall_nil.
Qed.

(** C2 (counterexample): with every modality on, the GSP branch applies
    its normalisation before its slice extraction. *)
Lemma national_gsp_normalized_before_slice :
  exists R g,
    MetNet.metnet_national_datapipe (Examples.config_all 60 60) "train" = Ok R /\
    MetNet.label_of R = Some g /\
    MetNet.normalized_after_slice (MetNet.data_chain g) = false.
Proof. do 2 eexists; split; [reflexivity|]; split; reflexivity. Qed.

(** ** Configuration loading *)

Lemma multiple_of_spec (d p : Z) :
  ConfigLoad.multiple_of d p = true <-> exists k, d = (k * p)%Z.
Proof.
  unfold ConfigLoad.multiple_of; destruct (Z.eqb_spec p 0) as [->|Hp].
  - rewrite Z.eqb_eq; split; [intros ->; exists 0%Z; ring | intros [k ->]; ring].
  - rewrite Z.eqb_eq, (Z.mod_divide _ _ Hp); unfold Z.divide; tauto.
Qed.

Lemma cadence_invalid (c : ConfigLoad.Cadence) :
  (ConfigLoad.sample_period_minutes c < 0 \/ ConfigLoad.history_minutes c < 0 \/
   ConfigLoad.forecast_minutes c < 0 \/
   ~ (exists k, ConfigLoad.history_minutes c = k * ConfigLoad.sample_period_minutes c) \/
   ~ (exists k, ConfigLoad.forecast_minutes c = k * ConfigLoad.sample_period_minutes c))%Z ->
  ConfigLoad.cadence_valid c = false.
Proof.
  intros H; apply not_true_iff_false; intros Hv; unfold ConfigLoad.cadence_valid in Hv.
  repeat rewrite andb_true_iff in Hv.
  destruct Hv as ((((H1 & H2) & H3) & H4) & H5).
  rewrite Z.leb_le in H1, H2, H3.
  apply multiple_of_spec in H4, H5.
  intuition lia.
Qed.

Lemma load_configuration_rejects {C} (cadences_of : C -> list (string * ConfigLoad.Cadence))
    (parse : string -> result C) (filename : string) (doc : C) name c :
  parse filename = Ok doc -> In (name, c) (cadences_of doc) ->
  ConfigLoad.cadence_valid c = false ->
  exists name', ConfigLoad.load_configuration cadences_of parse filename =
    Err (ConfigLoad.ConfigurationError ("invalid cadence descriptor for " ++ name')).
Proof.
  intros Hp Hin Hc; unfold ConfigLoad.load_configuration; rewrite Hp; cbn [bind].
  destruct (find _ _) as [[n d]|] eqn:E.
  - exists n; reflexivity.
  - exfalso; apply (find_none _ _ E) in Hin; simpl in Hin; rewrite Hc in Hin; discriminate.
Qed.


(** ** Statistics tables *)

Lemma string_length_append (a b : string) :
  String.length (a ++ b) = (String.length a + String.length b)%nat.
Proof. induction a; simpl; auto. Qed.

Lemma not_yet_msg_neq (key : string) :
  key <> "Values for " ++ key ++ " not yet available in ocf-datapipes".
Proof.
  intros H; apply (f_equal String.length) in H.
  rewrite !string_length_append in H; simpl in H; lia.
Qed.

Lemma py_in_In k l : py_in k l = true <-> In k l.
Proof.
  unfold py_in; rewrite existsb_exists; split.
  - intros (x & Hx & E); apply String.eqb_eq in E; subst; exact Hx.
  - intros Hk; exists k; split; [exact Hk | apply String.eqb_refl].
Qed.

(** C10: indexing an [NWPStatDict] returns the stored value exactly when
    the key is present; raises [KeyError] with the message "Values for
    <key> not yet available in ocf-datapipes" exactly when the key is
    absent and a known NWP provider; and raises [KeyError(key)] exactly
    when the key is absent and not a known provider. *)
Theorem NWPStatDict_getitem_cases {V : Type} (d : dict V) (key : string) :
  (forall v, DataVars.NWPStatDict_getitem d key = Ok v <-> dict_get d key = Some v) /\
  (DataVars.NWPStatDict_getitem d key =
     Err (KeyError ("Values for " ++ key ++ " not yet available in ocf-datapipes"))
   <-> dict_get d key = None /\ In key DataVars.NWP_PROVIDERS) /\
  (DataVars.NWPStatDict_getitem d key = Err (KeyError key)
   <-> dict_get d key = None /\ ~ In key DataVars.NWP_PROVIDERS).
Proof.
  unfold DataVars.NWPStatDict_getitem, raise.
  destruct (dict_get d key) as [w|] eqn:Hd.
  - split; [intros v; split; congruence|].
    split; split; intros H; try discriminate; destruct H; discriminate.
  - destruct (py_in key DataVars.NWP_PROVIDERS) eqn:Hp.
    + apply py_in_In in Hp.
      split; [intros v; split; discriminate|].
      split; split; intros H; try tauto.
      injection H as H1; exfalso; exact (not_yet_msg_neq key (eq_sym H1)).
    + assert (Hn : ~ In key DataVars.NWP_PROVIDERS)
        by (intros Hin; apply py_in_In in Hin; congruence).
      split; [intros v; split; discriminate|].
      split; split; intros H; try tauto.
      injection H as H1; exfalso; exact (not_yet_msg_neq key H1).
Qed.

(** C8: each of the five channels [open_gfs] emits has a mean and a std
    in the GFS tables, looked up by source type ["gfs"] and then by
    channel name. *)
Theorem gfs_channels_have_stats :
  Forall (fun c => exists m sd,
            DataVars.stat_lookup DataVars.NWP_MEANS "gfs" c = Ok m /\
            DataVars.stat_lookup DataVars.NWP_STDS "gfs" c = Ok sd)
         GFS.gfs_channels.
Proof.
  unfold GFS.gfs_channels.
  repeat constructor; do 2 eexists; split; reflexivity.
Qed.

(** ** The PV capacity selector *)

Lemma colist_unfold_eq {A} (l : SelectPV.colist A) : l = SelectPV.colist_unfold l.
Proof. destruct l; reflexivity. Qed.

(** C9: for every source stream (finite or not) and every capacity
    bounds, [SelectPVSystemsOnCapacityIterDataPipe] yields the source
    elements unchanged and in order. *)
Theorem select_pv_systems_on_capacity_is_identity {A : Type}
    (self : SelectPV.SelectPVSystemsOnCapacityIterDataPipe A) :
  SelectPV.bisim (SelectPV.iter self) (SelectPV.source_datapipe self).
Proof.
  unfold SelectPV.iter; generalize (SelectPV.source_datapipe self).
  cofix CIH; intros src.
  destruct src as [|x rest].
  - replace (SelectPV.iter_source SelectPV.conil) with (@SelectPV.conil A)
      by (rewrite (colist_unfold_eq (SelectPV.iter_source SelectPV.conil)); reflexivity).
    constructor.
  - replace (SelectPV.iter_source (SelectPV.cocons x rest))
      with (SelectPV.cocons x (SelectPV.iter_source rest))
      by (rewrite (colist_unfold_eq (SelectPV.iter_source (SelectPV.cocons x rest))); reflexivity).
    constructor; apply CIH.
Qed.

(** ** The GFS loader's errors *)

(** C5 (amended): [open_gfs] does not translate the error of the store
    reader: when [xr.open_mfdataset] (path with a [*]) or
    [xr.load_dataset] (otherwise) raises, [open_gfs] raises that same
    error. *)
Theorem open_gfs_propagates_store_error
    (open_mfdataset load_dataset : string -> result GFS.RawDataset)
    (zarr_path : string) (e : exn) :
  GFS.open_store open_mfdataset load_dataset zarr_path = Err e ->
  GFS.open_gfs open_mfdataset load_dataset zarr_path = Err e.
Proof. intros H; unfold GFS.open_gfs; rewrite H; reflexivity. Qed.

(** C5 (counterexample): on a store that does not exist, [open_gfs]
    raises the reader's [FileNotFoundError], not a [SourceUnavailable]. *)
Lemma open_gfs_missing_store_not_source_unavailable :
  exists e,
    GFS.open_gfs Examples.missing_store_reader Examples.missing_store_reader
      "missing.zarr" = Err e /\
    exn_type e <> "SourceUnavailable".
Proof. eexists; split; [reflexivity | discriminate]. Qed.

(** ** Witnesses *)

Lemma open_gfs_forward_fills_witness :
  GFS.open_store Examples.gfs_reader Examples.gfs_reader "gfs.zarr" = Ok Examples.gfs_raw /\
  GFS.open_gfs Examples.gfs_reader Examples.gfs_reader "gfs.zarr" = Ok Examples.gfs_out /\
  GFS.gfs_value Examples.gfs_out 0 4 4 = GFS.most_recent_prior Examples.gfs_raw "dlwrf" 240 240.
Proof.
  split; [reflexivity|]; split; [reflexivity|].
  apply (open_gfs_forward_fills Examples.gfs_reader Examples.gfs_reader "gfs.zarr"
           Examples.gfs_raw Examples.gfs_out); reflexivity.
Defined.

Lemma national_stage_order_witness :
  MetNet.metnet_national_datapipe (Examples.config_all 60 60) "train" = Ok Examples.national_all /\
  option_map MetNet.data_chain (MetNet.label_of Examples.national_all) =
    Some [MetNet.SOpen; MetNet.SDrop; MetNet.SNormalize; MetNet.SAddT0; MetNet.SSlice].
Proof.
  assert (Hr : MetNet.metnet_national_datapipe (Examples.config_all 60 60) "train"
               = Ok Examples.national_all) by reflexivity.
  split; [exact Hr|].
  destruct (national_stage_order (Examples.config_all 60 60) "train" Examples.national_all Hr)
    as (_ & _ & _ & _ & Hl).
  exact Hl.
Defined.

Lemma national_one_anchor_per_example_witness :
  MetNet.metnet_national_datapipe (Examples.config_all 60 60) "train" = Ok Examples.national_all /\
  exists T, Forall (fun n => n = T) (MetNet.t0_nodes Examples.national_all).
Proof.
  assert (Hr : MetNet.metnet_national_datapipe (Examples.config_all 60 60) "train"
               = Ok Examples.national_all) by reflexivity.
  split; [exact Hr|].
  destruct (national_one_anchor_per_example (Examples.config_all 60 60) "train"
              Examples.national_all Hr) as (T & _ & HT & _).
  exists T; exact HT.
Defined.

Lemma national_intersection_over_active_sources_witness :
  MetNet.metnet_national_datapipe Examples.config_nwp_pv "train" = Ok Examples.national_nwp_pv /\
  exists primary secondary,
    Forall (fun o => o = (primary, secondary)) (MetNet.overlap_nodes Examples.national_nwp_pv) /\
    map MetNet.leaf_of secondary = MetNet.active_optional_leaves Examples.config_nwp_pv.
Proof.
  assert (Hr : MetNet.metnet_national_datapipe Examples.config_nwp_pv "train"
               = Ok Examples.national_nwp_pv) by reflexivity.
  split; [exact Hr|].
  destruct (national_intersection_over_active_sources Examples.config_nwp_pv "train"
              Examples.national_nwp_pv Hr) as (p & sec & _ & Ho & _ & _ & Hs).
  exists p, sec; split; [exact Ho | exact Hs].
Defined.


Lemma open_gfs_propagates_store_error_witness :
  GFS.open_store Examples.missing_store_reader Examples.missing_store_reader "missing.zarr"
    = Err (mk_exn "FileNotFoundError" "No such file or directory: 'missing.zarr'") /\
  GFS.open_gfs Examples.missing_store_reader Examples.missing_store_reader "missing.zarr"
    = Err (mk_exn "FileNotFoundError" "No such file or directory: 'missing.zarr'").
Proof.
  split; [reflexivity|].
  apply open_gfs_propagates_store_error; reflexivity.
Defined.

(** ** More of data_vars.py *)

Module DataVarsFacts.
Import DataVars.

Lemma dict_get_map_keys (f : string -> Q) (ks : list string) (c : string) :
  dict_get (map (fun k => (k, f k)) ks) c =
  if existsb (String.eqb c) ks then Some (f c) else None.
Proof.
  induction ks as [|k r IH]; simpl; [reflexivity|].
  destruct (String.eqb c k) eqn:E; simpl; [|exact IH].
  apply String.eqb_eq in E; subst; reflexivity.
Qed.

Lemma existsb_keys_get {V} (d : dict V) (c : string) :
  existsb (String.eqb c) (dict_keys d) = match dict_get d c with Some _ => true | None => false end.
Proof.
  induction d as [|[k v] r IH]; simpl; [reflexivity|].
  destruct (String.eqb c k); simpl; [reflexivity | exact IH].
Qed.

Lemma to_data_array_get (d : dict Q) (c : string) :
  dict_get (to_data_array d) c =
    option_map (fun v => round_float32 (round_float64 v)) (dict_get d c).
Proof.
  unfold to_data_array; rewrite dict_get_map_keys, existsb_keys_get.
  destruct (dict_get d c); reflexivity.
Qed.

Lemma dict_get_In {V} (d : dict V) k v : dict_get d k = Some v -> In (k, v) d.
Proof.
  induction d as [|[k' v'] r IH]; simpl; [discriminate|].
  destruct (String.eqb k k') eqn:E; [|intros H; right; auto].
  intros H; injection H as <-; apply String.eqb_eq in E; subst; left; reflexivity.
Qed.

Lemma sel_channel_positive (da : ChannelArray) c sd :
  Forall (fun kv => (0 < snd kv)%Q) da ->
  sel_channel da c = Ok sd -> (0 < sd)%Q.
Proof.
  intros Hd H; unfold sel_channel in H.
  destruct (dict_get da c) as [v|] eqn:E; [|discriminate].
  injection H as <-; apply dict_get_In in E.
  rewrite Forall_forall in Hd; exact (Hd _ E).
Qed.

End DataVarsFacts.

(** For every NWP source with variable names ([ukv], [gfs]), each of its
    variable names has a mean and a std in [NWP_MEANS] and [NWP_STDS];
    likewise each RSS variable name has a mean and a std in [RSS_MEAN] and
    [RSS_STD]. *)
Theorem stat_tables_cover_variable_names (source : string) (names : list string) :
  DataVars.NWPStatDict_getitem DataVars.NWP_VARIABLE_NAMES source = Ok names ->
  Forall (fun c => exists m sd,
            DataVars.stat_lookup DataVars.NWP_MEANS source c = Ok m /\
            DataVars.stat_lookup DataVars.NWP_STDS source c = Ok sd) names /\
  Forall (fun c => exists m sd,
            DataVars.sel_channel DataVars.RSS_MEAN c = Ok m /\
            DataVars.sel_channel DataVars.RSS_STD c = Ok sd) DataVars.RSS_VARIABLE_NAMES.
Proof.
  intros H; split.
  2:{ vm_compute; repeat constructor; do 2 eexists; split; reflexivity. }
  unfold DataVars.NWPStatDict_getitem in H; simpl in H.
  destruct (String.eqb source "ukv") eqn:E1.
  - apply String.eqb_eq in E1; subst; injection H as <-.
    vm_compute; repeat constructor; do 2 eexists; split; reflexivity.
  - destruct (String.eqb source "gfs") eqn:E2.
    + apply String.eqb_eq in E2; subst; injection H as <-.
      vm_compute; repeat constructor; do 2 eexists; split; reflexivity.
    + unfold raise in H;
      repeat match type of H with context [if ?b then _ else _] => destruct b end;
      discriminate.
Qed.

(** Every standard deviation that the NWP lookup ([NWP_STDS], by source
    then channel) or a channel selection of [RSS_STD] returns is strictly
    positive, so dividing by it is defined. *)
Theorem stat_stds_positive :
  (forall source c sd, DataVars.stat_lookup DataVars.NWP_STDS source c = Ok sd -> (0 < sd)%Q) /\
  (forall c sd, DataVars.sel_channel DataVars.RSS_STD c = Ok sd -> (0 < sd)%Q).
Proof.
  split.
  - intros source c sd H; unfold DataVars.stat_lookup in H.
    apply bind_ok in H as (da & Hda & H).
    unfold DataVars.NWPStatDict_getitem in Hda; simpl in Hda.
    destruct (String.eqb source "ukv").
    + injection Hda as <-.
      apply (DataVarsFacts.sel_channel_positive DataVars.UKV_STD c); [|exact H].
      vm_compute; repeat constructor.
    + destruct (String.eqb source "gfs").
      * injection Hda as <-.
        apply (DataVarsFacts.sel_channel_positive DataVars.GFS_STD c); [|exact H].
        vm_compute; repeat constructor.
      * unfold raise in Hda;
        repeat match type of Hda with context [if ?b then _ else _] => destruct b end;
        discriminate.
  - intros c sd H.
    apply (DataVarsFacts.sel_channel_positive DataVars.RSS_STD c); [|exact H].
    vm_compute; repeat constructor.
Qed.

(** ** More of gfs.py *)

Module GFSMore.
Import GFS GFSFacts.

Lemma mapM_ok_of_Forall {A B} (f : A -> result B) l :
  Forall (fun x => exists y, f x = Ok y) l -> exists ys, mapM f l = Ok ys.
Proof.
  induction 1 as [|x r [y Hy] _ [ys Hys]]; simpl; [eexists; reflexivity|].
  rewrite Hy; simpl; rewrite Hys; simpl; eexists; reflexivity.
Qed.

Lemma mapM_first_err {A B} (f : A -> result B) pre x post e :
  Forall (fun x => exists y, f x = Ok y) pre -> f x = Err e ->
  mapM f (pre ++ x :: post) = Err e.
Proof.
  intros Hpre Hx; induction Hpre as [|z r [y Hy] _ IH]; simpl.
  - rewrite Hx; reflexivity.
  - rewrite Hy; simpl; rewrite IH; reflexivity.
Qed.

Lemma Forall2_Forall_l {A B} (R : A -> B -> Prop) (P : B -> Prop) l1 l2 :
  Forall2 R l1 l2 -> Forall P l2 -> Forall (fun x => exists y, R x y /\ P y) l1.
Proof.
  induction 1; intros HP; inversion HP; subst; constructor; eauto.
Qed.

Lemma Forall2_Forall_r {A B} (R : A -> B -> Prop) (P : B -> Prop) l1 l2 :
  Forall2 R l1 l2 -> Forall (fun x => forall y, R x y -> P y) l1 -> Forall P l2.
Proof.
  induction 1; intros HP; inversion HP; subst; constructor; eauto.
Qed.

Lemma insert_by_step_length p l : List.length (insert_by_step p l) = S (List.length l).
Proof.
  induction l as [|q r IH]; simpl; [reflexivity|].
  destruct (fst p <=? fst q)%Z; simpl; [reflexivity | rewrite IH; reflexivity].
Qed.

Lemma sortby_step_length l : List.length (sortby_step l) = List.length l.
Proof.
  unfold sortby_step; induction l as [|q r IH]; cbn [fold_right]; [reflexivity|].
  rewrite insert_by_step_length, IH; reflexivity.
Qed.

Lemma combine_nil_iff {A B} (l : list A) (l' : list B) :
  combine l l' = [] <-> l = [] \/ l' = [].
Proof.
  destruct l, l'; simpl; split; intros H; auto; try discriminate;
    destruct H; discriminate.
Qed.

Lemma interp1d_linear_err pts x e : interp1d_linear pts x = Err e -> pts = [].
Proof.
  unfold interp1d_linear; destruct pts as [|[x0 y0] r]; [reflexivity|].
  destruct (_ || _)%bool; [discriminate|].
  repeat match goal with |- context [match ?t with _ => _ end] => destruct t end;
    discriminate.
Qed.

Lemma interp1d_linear_ok pts x : pts <> [] -> exists v, interp1d_linear pts x = Ok v.
Proof.
  intros Hne; destruct (interp1d_linear pts x) as [v|e] eqn:E; [eauto|].
  apply interp1d_linear_err in E; contradiction.
Qed.

(** The interpolation at step 0 of one row succeeds exactly when the row
    and the steps are non-empty. *)
Lemma interp_row_ok steps row :
  (exists v, interp1d_linear (sortby_step (combine steps row)) 0%Z = Ok v) <->
  steps <> [] /\ row <> [].
Proof.
  split.
  - intros [v Hv].
    assert (Hne : sortby_step (combine steps row) <> []).
    { intros E; rewrite E in Hv; discriminate. }
    assert (Hc : combine steps row <> []).
    { intros E; apply Hne; rewrite E; reflexivity. }
    split; intros E; apply Hc, combine_nil_iff; auto.
  - intros [Hs Hr]; apply interp1d_linear_ok.
    intros E; apply (f_equal (@List.length _)) in E.
    rewrite sortby_step_length in E; simpl in E.
    apply length_zero_iff_nil, combine_nil_iff in E; tauto.
Qed.

Lemma is_unique_cons x r :
  is_unique (x :: r) = true <-> ~ In x r /\ is_unique r = true.
Proof.
  simpl; rewrite andb_true_iff, negb_true_iff; split; intros [H1 H2]; split; auto.
  - intros Hin; assert (existsb (Z.eqb x) r = true)
      by (apply existsb_exists; exists x; split; [exact Hin | apply Z.eqb_refl]).
    congruence.
  - destruct (existsb (Z.eqb x) r) eqn:E; [|reflexivity].
    apply existsb_exists in E as (y & Hy & Exy); apply Z.eqb_eq in Exy; subst; contradiction.
Qed.

(** The two checks of [resample(...).pad()] together say the labels are
    strictly increasing. *)
Lemma resample_checks_sorted l :
  non_decreasing l = true /\ is_unique l = true <-> Sorted Z.lt l.
Proof.
  split.
  - induction l as [|x r IH]; intros [Hnd Hu]; [constructor|].
    apply non_decreasing_cons in Hnd as [Hnd Hf].
    apply is_unique_cons in Hu as [Hnin Hu].
    constructor; [apply IH; auto|].
    destruct r as [|y r']; constructor.
    inversion Hf; subst.
    assert (x <> y) by (intros ->; apply Hnin; left; reflexivity). lia.
  - intros Hs; apply (Sorted_StronglySorted (fun a b c => Z.lt_trans a b c)) in Hs.
    induction Hs as [|x r Hs IH Hf]; [split; reflexivity|].
    destruct IH as [Hnd Hu]; split.
    + destruct r as [|y r']; [reflexivity|].
      change (non_decreasing (x :: y :: r')) with ((x <=? y)%Z && non_decreasing (y :: r'))%bool.
      rewrite Hnd, andb_true_r.
      inversion Hf; subst; apply Z.leb_le; lia.
    + apply is_unique_cons; split; [|exact Hu].
      intros Hin; rewrite Forall_forall in Hf; specialize (Hf x Hin); lia.
Qed.

Lemma sorted_zero_cons l :
  Sorted Z.lt (0%Z :: l) <-> Forall (fun s => (0 < s)%Z) l /\ Sorted Z.lt l.
Proof.
  split.
  - intros H; pose proof (Sorted_StronglySorted (fun a b c => Z.lt_trans a b c) H) as Hs.
    apply StronglySorted_inv in Hs as [_ Hf]; apply Sorted_inv in H as [H _]; auto.
  - intros [Hf Hs]; constructor; [exact Hs|].
    destruct l as [|y r]; constructor; inversion Hf; auto.
Qed.

Lemma last_cons_self {A} (a : A) l : last (a :: l) a = last l a.
Proof. destruct l; reflexivity. Qed.

Lemma take_padded_length {A} (d : A) ix l labels :
  List.length (take_padded d ix l labels) = List.length labels.
Proof. unfold take_padded; apply length_map. Qed.

(** [open_gfs] up to its two resamplings, when the variables, the
    [valid_time] coordinate and the rows needed by [interp] are there. *)
Lemma interp_step0_eq da :
  is_unique (da_step da) = true -> da_step da <> [] ->
  interp_step0 da =
    (vals <- mapM (fun ch =>
                     mapM (fun row =>
                             v <- interp1d_linear (sortby_step (combine (da_step da) row)) 0%Z ;;
                             Ok [v]) ch)
                  (da_values da) ;;
     Ok {| da_init_time := da_init_time da; da_step := [0%Z];
           da_channel := da_channel da; da_has_valid_time := da_has_valid_time da;
           da_values := vals |}).
Proof.
  intros Hu Hne; unfold interp_step0; rewrite Hu; simpl.
  destruct (da_step da); [contradiction | reflexivity].
Qed.

Lemma resample_pad_sorted {D} dim fi idx (pick : (Z -> option nat) -> list Z -> D) :
  Sorted Z.lt idx -> idx <> [] ->
  resample_pad dim fi idx pick = Ok (fi idx, pick (pad_indexer idx) (fi idx)).
Proof.
  intros Hs Hne; apply resample_checks_sorted in Hs as [Hnd Hu].
  unfold resample_pad; rewrite Hnd; destruct idx as [|x l]; [contradiction|].
  rewrite Hu; reflexivity.
Qed.

(** In a well-formed store, every row of a variable has one value per
    step. *)
Lemma well_formed_rows raw c a :
  well_formed raw = true -> dict_get (raw_vars raw) c = Some a ->
  List.length a = List.length (raw_time raw) /\
  Forall (fun row => List.length row = List.length (raw_step raw)) a.
Proof.
  unfold well_formed; intros Hw Hg.
  apply DataVarsFacts.dict_get_In in Hg.
  rewrite forallb_forall in Hw; specialize (Hw _ Hg); simpl in Hw.
  apply andb_true_iff in Hw as [Hl Hr]; apply Nat.eqb_eq in Hl; split; [exact Hl|].
  apply Forall_forall; intros row Hrow; rewrite forallb_forall in Hr.
  apply Nat.eqb_eq, Hr, Hrow.
Qed.

(** Present variables of a well-formed store with steps give the rows
    [interp] needs. *)
Lemma well_formed_vars raw :
  well_formed raw = true -> raw_step raw <> [] ->
  Forall (fun c => dict_get (raw_vars raw) c <> None) gfs_channels ->
  Forall (fun c => exists a, dict_get (raw_vars raw) c = Some a /\
             Forall (fun row => raw_step raw <> [] /\ row <> []) a) gfs_channels.
Proof.
  intros Hw Hne Hp; eapply Forall_impl; [|exact Hp]; simpl; intros c Hc.
  destruct (dict_get (raw_vars raw) c) as [a|] eqn:E; [|contradiction].
  exists a; split; [reflexivity|].
  destruct (well_formed_rows _ _ _ Hw E) as [_ Hr].
  eapply Forall_impl; [|exact Hr]; simpl; intros row Hl; split; [exact Hne|].
  intros ->; apply Hne; destruct (raw_step raw); [reflexivity | discriminate].
Qed.

Lemma open_gfs_prefix omf ld path raw :
  open_store omf ld path = Ok raw ->
  Forall (fun c => exists a, dict_get (raw_vars raw) c = Some a /\
             Forall (fun row => raw_step raw <> [] /\ row <> []) a) gfs_channels ->
  raw_has_valid_time raw = true ->
  is_unique (raw_step raw) = true -> raw_step raw <> [] ->
  exists cat, da_init_time cat = raw_time raw /\ da_step cat = (0%Z :: raw_step raw) /\
    open_gfs omf ld path = bind (resample_init_pad cat) resample_step_pad.
Proof.
  intros Hraw Hvars Hvt Hu Hne.
  destruct (mapM_ok_of_Forall (get_var raw) gfs_channels) as [arrs Harrs].
  { eapply Forall_impl; [|exact Hvars]; simpl; intros c (a & Ha & _).
    unfold get_var; rewrite Ha; eauto. }
  pose proof (mapM_Forall2 _ _ _ Harrs) as H2.
  assert (Hrows : Forall (Forall (fun row => raw_step raw <> [] /\ row <> [])) arrs).
  { apply (Forall2_Forall_r _ _ _ _ H2).
    eapply Forall_impl; [|exact Hvars]; simpl; intros c (a & Ha & Hr) y Hy.
    unfold get_var in Hy; rewrite Ha in Hy; injection Hy as <-; exact Hr. }
  set (nwp := {| da_init_time := raw_time raw; da_step := raw_step raw;
                 da_channel := gfs_channels; da_has_valid_time := false;
                 da_values := arrs |}).
  destruct (mapM_ok_of_Forall
              (fun ch => mapM (fun row =>
                  v <- interp1d_linear (sortby_step (combine (da_step nwp) row)) 0%Z ;;
                  Ok [v]) ch) arrs) as [vals Hvals].
  { eapply Forall_impl; [|exact Hrows]; simpl; intros ch Hch.
    apply mapM_ok_of_Forall.
    eapply Forall_impl; [|exact Hch]; simpl; intros row Hr.
    apply interp_row_ok in Hr as [v Hv]; rewrite Hv; simpl; eauto. }
  exists (concat_step {| da_init_time := raw_time raw; da_step := [0%Z];
                         da_channel := gfs_channels; da_has_valid_time := false;
                         da_values := vals |} nwp).
  split; [reflexivity|]; split; [reflexivity|].
  unfold open_gfs; rewrite Hraw; cbn [bind].
  unfold concat_channels; rewrite Harrs; cbn [bind].
  unfold drop_valid_time; simpl; rewrite Hvt; cbn [bind].
  rewrite interp_step0_eq by assumption; simpl in Hvals |- *; rewrite Hvals; reflexivity.
Qed.

Lemma resample_init_pad_ok cat :
  Sorted Z.lt (da_init_time cat) -> da_init_time cat <> [] ->
  exists a3, resample_init_pad cat = Ok a3 /\ da_step a3 = da_step cat.
Proof.
  intros Hs Hne; unfold resample_init_pad.
  rewrite (resample_pad_sorted _ _ _ _ Hs Hne); simpl.
  eexists; split; reflexivity.
Qed.

End GFSMore.

(** Whenever [open_gfs] succeeds, it returns a full grid: the channels
    are [dlwrf, t, u, v, prate]; the issuance times are every hour from
    the hour of the first issuance of the store to its last issuance; the
    steps are every hour from 0 to the last lead time of the store; every
    channel has one row per issuance time and every row one value per
    step; and [valid_time] is dropped. *)
Theorem open_gfs_grid (open_mfdataset load_dataset : string -> result GFS.RawDataset)
    (zarr_path : string) (raw : GFS.RawDataset) (out : GFS.DataArray) :
  GFS.open_store open_mfdataset load_dataset zarr_path = Ok raw ->
  GFS.open_gfs open_mfdataset load_dataset zarr_path = Ok out ->
  GFS.da_channel out = GFS.gfs_channels /\
  GFS.da_has_valid_time out = false /\
  GFS.da_init_time out = GFS.datetime_full_index (GFS.raw_time raw) /\
  GFS.da_step out = GFS.hourly_labels 0 (last (GFS.raw_step raw) 0%Z) /\
  List.length (GFS.da_values out) = 5%nat /\
  Forall (fun ch => List.length ch = List.length (GFS.da_init_time out) /\
                    Forall (fun row => List.length row = List.length (GFS.da_step out)) ch)
         (GFS.da_values out).
Proof.
  Import GFS GFSFacts GFSMore.
  intros Hraw H.
  unfold open_gfs in H; rewrite Hraw in H; cbn [bind] in H.
  inv_bind H. rename a into a1, Ha into H1.
  inv_bind H. rename a into a2, Ha into H2.
  inv_bind H. rename a into s0, Ha into H3.
  inv_bind H. rename a into a3, Ha into H4.
  unfold concat_channels in H1; inv_bind H1; injection H1 as <-.
  rename a into arrs, Ha into Harrs.
  apply mapM_Forall2, Forall2_length in Harrs; simpl in Harrs.
  unfold drop_valid_time in H2; simpl in H2.
  destruct (raw_has_valid_time raw); [|discriminate].
  injection H2 as <-.
  apply interp_step0_inv in H3 as (_ & _ & vals & Hvals & ->).
  apply mapM_Forall2, Forall2_length in Hvals; simpl in Hvals.
  unfold resample_init_pad in H4; apply bind_ok in H4 as ([fi1 v1] & Hr1 & H4).
  apply resample_pad_ok in Hr1 as (_ & _ & _ & Hr1).
  injection Hr1 as -> ->; injection H4 as <-.
  unfold resample_step_pad in H; apply bind_ok in H as ([fi2 v2] & Hr2 & H).
  apply resample_pad_ok in Hr2 as (_ & _ & _ & Hr2).
  injection Hr2 as -> ->; injection H as <-; simpl.
  do 3 (split; [reflexivity|]).
  split; [destruct (raw_step raw); reflexivity|].
  split.
  - rewrite !length_map, length_combine; lia.
  - rewrite Forall_forall; intros ch Hch.
    apply in_map_iff in Hch as (ch1 & <- & Hch1).
    apply in_map_iff in Hch1 as (ch2 & <- & _).
    rewrite length_map, take_padded_length; split; [reflexivity|].
    rewrite Forall_forall; intros row Hrow.
    apply in_map_iff in Hrow as (row1 & <- & _).
    apply take_padded_length.
Qed.

(** For a well-formed store (every variable has one row per issuance
    time and one value per lead time), once the store is read,
    [open_gfs] succeeds exactly when: each of [dlwrf, t, u, v, prate] is
    in the store; the [valid_time] coordinate is present; there is at
    least one issuance time and they are strictly increasing; and there
    is at least one lead time and they are strictly increasing and all
    positive. A store with a lead time of 0 or less is always rejected. *)
Theorem open_gfs_success_iff (open_mfdataset load_dataset : string -> result GFS.RawDataset)
    (zarr_path : string) (raw : GFS.RawDataset) :
  GFS.open_store open_mfdataset load_dataset zarr_path = Ok raw ->
  GFS.well_formed raw = true ->
  (exists out, GFS.open_gfs open_mfdataset load_dataset zarr_path = Ok out) <->
  (Forall (fun c => dict_get (GFS.raw_vars raw) c <> None) GFS.gfs_channels /\
   GFS.raw_has_valid_time raw = true /\
   GFS.raw_time raw <> [] /\ Sorted Z.lt (GFS.raw_time raw) /\
   GFS.raw_step raw <> [] /\
   Forall (fun s => (0 < s)%Z) (GFS.raw_step raw) /\ Sorted Z.lt (GFS.raw_step raw)).
Proof.
  Import GFS GFSFacts GFSMore.
  intros Hraw Hw; split.
  - intros [out H].
    unfold open_gfs in H; rewrite Hraw in H; cbn [bind] in H.
    inv_bind H. rename a into a1, Ha into H1.
    inv_bind H. rename a into a2, Ha into H2.
    inv_bind H. rename a into s0, Ha into H3.
    inv_bind H. rename a into a3, Ha into H4.
    unfold concat_channels in H1; inv_bind H1; injection H1 as <-.
    rename a into arrs, Ha into Harrs.
    apply mapM_Forall2 in Harrs.
    unfold drop_valid_time in H2; simpl in H2.
    destruct (raw_has_valid_time raw) eqn:Hvt; [|discriminate].
    injection H2 as <-.
    apply interp_step0_inv in H3 as (Hu & Hne & vals & _ & ->); simpl in Hu, Hne.
    apply resample_init_pad_keeps in H4 as (Hs4 & _ & _ & _ & _ & Hnd1 & Hne1 & Hu1).
    simpl in Hs4, Hnd1, Hne1, Hu1.
    unfold resample_step_pad in H; apply bind_ok in H as ([fi vs] & Hr & _).
    apply resample_pad_ok in Hr as (Hnd2 & _ & Hu2 & _).
    rewrite Hs4 in Hnd2, Hu2.
    split.
    { clear -Harrs; induction Harrs as [|c a cs as' Hc _ IH]; constructor; [|exact IH].
      intros E; unfold get_var in Hc; rewrite E in Hc; discriminate. }
    split; [reflexivity|]; split; [exact Hne1|].
    split; [apply resample_checks_sorted; auto|]; split; [exact Hne|].
    apply sorted_zero_cons, resample_checks_sorted; auto.
  - intros (Hp & Hvt & Htne & Ht & Hsne & Hpos & Hs).
    assert (Hu : is_unique (raw_step raw) = true)
      by (apply resample_checks_sorted in Hs; tauto).
    destruct (open_gfs_prefix _ _ _ _ Hraw (well_formed_vars _ Hw Hsne Hp) Hvt Hu Hsne)
      as (cat & Hct & Hcs & ->).
    rewrite <- Hct in Ht, Htne.
    destruct (resample_init_pad_ok _ Ht Htne) as (a3 & -> & Has); cbn [bind].
    unfold resample_step_pad; rewrite Has, Hcs.
    rewrite (resample_pad_sorted _ _ _ _ (proj2 (sorted_zero_cons _) (conj Hpos Hs)))
      by discriminate.
    eexists; reflexivity.
Qed.

(** The order of [open_gfs]'s errors once a well-formed store is read:
    if one of [dlwrf, t, u, v, prate] is missing, it raises [KeyError]
    naming the first missing one in that order; if all are there but
    [valid_time] is not, it raises the [ValueError] of [drop]; if these
    are fine but two lead times are equal, [interp] raises
    [InvalidIndexError]; and if the lead times are also distinct and
    non-empty but the issuance times are not sorted, it raises the
    [ValueError] "index must be monotonic for resampling". *)
Theorem open_gfs_error_order (open_mfdataset load_dataset : string -> result GFS.RawDataset)
    (zarr_path : string) (raw : GFS.RawDataset) :
  GFS.open_store open_mfdataset load_dataset zarr_path = Ok raw ->
  GFS.well_formed raw = true ->
  (forall pre c post,
      (pre ++ c :: post)%list = GFS.gfs_channels ->
      Forall (fun c' => dict_get (GFS.raw_vars raw) c' <> None) pre ->
      dict_get (GFS.raw_vars raw) c = None ->
      GFS.open_gfs open_mfdataset load_dataset zarr_path = Err (KeyError c)) /\
  (Forall (fun c => dict_get (GFS.raw_vars raw) c <> None) GFS.gfs_channels ->
   GFS.raw_has_valid_time raw = false ->
   GFS.open_gfs open_mfdataset load_dataset zarr_path =
     Err (ValueError "One or more of the specified variables cannot be found in this dataset")) /\
  (Forall (fun c => dict_get (GFS.raw_vars raw) c <> None) GFS.gfs_channels ->
   GFS.raw_has_valid_time raw = true ->
   GFS.is_unique (GFS.raw_step raw) = false ->
   GFS.open_gfs open_mfdataset load_dataset zarr_path =
     Err (mk_exn "InvalidIndexError" "Reindexing only valid with uniquely valued Index objects")) /\
  (Forall (fun c => dict_get (GFS.raw_vars raw) c <> None) GFS.gfs_channels ->
   GFS.raw_has_valid_time raw = true ->
   GFS.is_unique (GFS.raw_step raw) = true -> GFS.raw_step raw <> [] ->
   GFS.non_decreasing (GFS.raw_time raw) = false ->
   GFS.open_gfs open_mfdataset load_dataset zarr_path =
     Err (ValueError "index must be monotonic for resampling")).
Proof.
  Import GFS GFSFacts GFSMore.
  intros Hraw Hw; split; [|split; [|split]].
  - intros pre c post Hsplit Hpre Hc.
    unfold open_gfs; rewrite Hraw; cbn [bind].
    unfold concat_channels; rewrite <- Hsplit.
    rewrite (mapM_first_err (get_var raw) pre c post (KeyError c)); [reflexivity| |].
    + eapply Forall_impl; [|exact Hpre]; simpl; intros c' Hc'.
      unfold get_var; destruct (dict_get (raw_vars raw) c') eqn:E; [eauto | contradiction].
    + unfold get_var; rewrite Hc; reflexivity.
  - intros Hvars Hvt.
    destruct (mapM_ok_of_Forall (get_var raw) gfs_channels) as [arrs Harrs].
    { eapply Forall_impl; [|exact Hvars]; simpl; intros c Hc.
      unfold get_var; destruct (dict_get (raw_vars raw) c) eqn:E; [eauto | contradiction]. }
    unfold open_gfs; rewrite Hraw; cbn [bind].
    unfold concat_channels; rewrite Harrs; cbn [bind].
    unfold drop_valid_time; simpl; rewrite Hvt; reflexivity.
  - intros Hvars Hvt Hu.
    destruct (mapM_ok_of_Forall (get_var raw) gfs_channels) as [arrs Harrs].
    { eapply Forall_impl; [|exact Hvars]; simpl; intros c Hc.
      unfold get_var; destruct (dict_get (raw_vars raw) c) eqn:E; [eauto | contradiction]. }
    unfold open_gfs; rewrite Hraw; cbn [bind].
    unfold concat_channels; rewrite Harrs; cbn [bind].
    unfold drop_valid_time; simpl; rewrite Hvt; cbn [bind].
    unfold interp_step0; simpl; rewrite Hu; reflexivity.
  - intros Hvars Hvt Hu Hne Hnd.
    destruct (open_gfs_prefix _ _ _ _ Hraw (well_formed_vars _ Hw Hne Hvars) Hvt Hu Hne)
      as (cat & Hct & _ & ->).
    unfold resample_init_pad, resample_pad; rewrite Hct, Hnd; reflexivity.
Qed.

(** A well-formed store whose lead times start at 0 (and are otherwise
    sorted), with all it needs otherwise, is rejected by the step
    resampling: the interpolated step 0 duplicates the store's own, and
    [open_gfs] raises the [ValueError] on duplicate values of the [step]
    index. *)
Theorem open_gfs_rejects_lead_time_zero
    (open_mfdataset load_dataset : string -> result GFS.RawDataset)
    (zarr_path : string) (raw : GFS.RawDataset) (rest : list Z) :
  GFS.open_store open_mfdataset load_dataset zarr_path = Ok raw ->
  GFS.well_formed raw = true ->
  Forall (fun c => dict_get (GFS.raw_vars raw) c <> None) GFS.gfs_channels ->
  GFS.raw_has_valid_time raw = true ->
  GFS.raw_time raw <> [] -> Sorted Z.lt (GFS.raw_time raw) ->
  GFS.raw_step raw = (0%Z :: rest) ->
  Sorted Z.lt (GFS.raw_step raw) ->
  GFS.open_gfs open_mfdataset load_dataset zarr_path =
    Err (ValueError "cannot reindex or align along dimension 'step' because the (pandas) index has duplicate values").
Proof.
  Import GFS GFSFacts GFSMore.
  intros Hraw Hw Hp Hvt Htne Ht Hst Hs.
  assert (Hsne : raw_step raw <> []) by (rewrite Hst; discriminate).
  assert (Hu : is_unique (raw_step raw) = true)
    by (apply resample_checks_sorted in Hs; tauto).
  destruct (open_gfs_prefix _ _ _ _ Hraw (well_formed_vars _ Hw Hsne Hp) Hvt Hu Hsne)
    as (cat & Hct & Hcs & ->).
  rewrite <- Hct in Ht, Htne.
  destruct (resample_init_pad_ok _ Ht Htne) as (a3 & -> & Has); cbn [bind].
  unfold resample_step_pad, resample_pad; rewrite Has, Hcs, Hst.
  rewrite Hst in Hs; apply resample_checks_sorted in Hs as [Hnd _].
  replace (non_decreasing (0%Z :: 0%Z :: rest)) with true
    by (symmetry; change ((0 <=? 0)%Z && non_decreasing (0%Z :: rest) = true)%bool;
        rewrite Hnd; reflexivity).
  replace (is_unique (0%Z :: 0%Z :: rest)) with false
    by (symmetry; apply not_true_iff_false; rewrite is_unique_cons;
        intros [H _]; apply H; left; reflexivity).
  reflexivity.
Qed.

(** ** More of metnet_national.py *)

Module MetNetMore.
Import MetNet.

(** Rewrite with the outcomes of the path and mode tests. *)
Ltac rw_eqs :=
  repeat match goal with E : String.eqb _ _ = _ |- _ => progress rewrite E end.

(** Turn the outcomes of the string tests into (in)equalities. *)
Ltac eqs_to_props :=
  repeat match goal with
         | E : String.eqb _ _ = true |- _ => apply String.eqb_eq in E
         | E : String.eqb _ _ = false |- _ => apply String.eqb_neq in E
         end.

(** Case analysis on the tests of [metnet_national_datapipe], for a
    configuration given field by field. *)
Ltac build_cfg H :=
  unfold metnet_national_datapipe in H; simpl in H;
  unfold neq_empty in *;
  repeat match type of H with
         | context [String.eqb ?a ?b] =>
             let E := fresh "E" in destruct (String.eqb a b) eqn:E
         end;
  simpl in H; try discriminate; injection H as <-.

(** Solve a goal [In x l] on a concrete list. *)
Ltac in_list := simpl; repeat (first [left; reflexivity | right]).

End MetNetMore.

(** When PV is on, the pipeline has one PV image, built with
    [normalize=True] and at most 100 PV systems, over the second child of
    a fork whose first child is one of the modalities: satellite if it is
    on, else HRV if it is on, else NWP (with none of the three on, the
    construction fails); that image input is opened, given its t0 index,
    sliced and normalised. With PV off there is no PV image. *)
Theorem national_pv_image_source (cfg : MetNet.Configuration) (mode : string)
    (R : MetNet.Datapipe) :
  MetNet.metnet_national_datapipe cfg mode = Ok R ->
  let c := MetNet.input_data cfg in
  map (fun '(img, b, n) => (MetNet.leaf_of img, MetNet.data_chain img, b, n))
      (MetNet.pv_image_nodes R) =
    match MetNet.pv_files_groups (MetNet.pv c) with
    | g :: _ =>
        if String.eqb (MetNet.pv_filename g) "" then []
        else [(if negb (String.eqb (MetNet.satellite_zarr_path (MetNet.satellite c)) "")
               then Some (MetNet.LSatellite (MetNet.satellite_zarr_path (MetNet.satellite c)))
               else if negb (String.eqb (MetNet.hrvsatellite_zarr_path (MetNet.hrvsatellite c)) "")
               then Some (MetNet.LSatellite (MetNet.hrvsatellite_zarr_path (MetNet.hrvsatellite c)))
               else Some (MetNet.LNWP (MetNet.nwp_zarr_path (MetNet.nwp c))),
               [MetNet.SOpen; MetNet.SAddT0; MetNet.SSlice; MetNet.SNormalize], true, 100%Z)]
    | [] => []
    end /\
  Forall (fun '(img, _, _) => exists q, img = MetNet.Fork q 2 1 /\
            In (MetNet.Fork q 2 0) (MetNet.modalities_of R))
         (MetNet.pv_image_nodes R).
Proof.
  Import MetNet MetNetFacts MetNetMore.
  intros H.
  destruct cfg as [[[gp gh gf] [np nh nf] [sp sh] [hp hh] [[|g gs] ph]] [ntr nva]];
    simpl; build_cfg H; simpl;
    (split; [reflexivity|]);
    repeat constructor; eexists; (split; [reflexivity | in_list]).
Qed.

(** The five-way fork of the intersected time periods is consumed only
    through its first child (by the GSP [select_time_periods]); of the
    five-way fork of the selected t0, child 0 (GSP) is always consumed and
    children 1, 2, 3, 4 exactly when NWP, satellite, HRV, PV are on. The
    other children are never read. *)
Theorem national_fork_children (cfg : MetNet.Configuration) (mode : string)
    (R : MetNet.Datapipe) :
  MetNet.metnet_national_datapipe cfg mode = Ok R ->
  let c := MetNet.input_data cfg in
  (forall k, In k (MetNet.overlap_fork_children R) <-> k = (5, 0)%nat) /\
  (forall k, In k (MetNet.t0_fork_children R) <->
     k = (5, 0)%nat \/
     (k = (5, 1)%nat /\ MetNet.nwp_zarr_path (MetNet.nwp c) <> "") \/
     (k = (5, 2)%nat /\ MetNet.satellite_zarr_path (MetNet.satellite c) <> "") \/
     (k = (5, 3)%nat /\ MetNet.hrvsatellite_zarr_path (MetNet.hrvsatellite c) <> "") \/
     (k = (5, 4)%nat /\ match MetNet.pv_files_groups (MetNet.pv c) with
                        | g :: _ => MetNet.pv_filename g <> ""
                        | [] => False
                        end)).
Proof.
  Import MetNet MetNetFacts MetNetMore.
  intros H.
  destruct cfg as [[[gp gh gf] [np nh nf] [sp sh] [hp hh] [[|g gs] ph]] [ntr nva]];
    simpl; build_cfg H; simpl; eqs_to_props;
    (split; intros k; (split;
     [ intros Hk; repeat (destruct Hk as [Hk|Hk]; [subst k; tauto|]); contradiction
     | intros Hk; repeat (destruct Hk as [Hk|Hk]; [|]);
       repeat match type of Hk with _ /\ _ => destruct Hk as [Hk ?] end;
       subst k; try contradiction; in_list ])).
Qed.

(** ** Witnesses of the properties above *)

Lemma stat_tables_cover_variable_names_witness :
  DataVars.NWPStatDict_getitem DataVars.NWP_VARIABLE_NAMES "gfs"
    = Ok ["t"; "dswrf"; "prate"; "dlwrf"; "u"; "v"] /\
  Forall (fun c => exists m sd,
            DataVars.stat_lookup DataVars.NWP_MEANS "gfs" c = Ok m /\
            DataVars.stat_lookup DataVars.NWP_STDS "gfs" c = Ok sd)
         ["t"; "dswrf"; "prate"; "dlwrf"; "u"; "v"].
Proof.
  assert (Hn : DataVars.NWPStatDict_getitem DataVars.NWP_VARIABLE_NAMES "gfs"
               = Ok ["t"; "dswrf"; "prate"; "dlwrf"; "u"; "v"]) by reflexivity.
  split; [exact Hn|].
  exact (proj1 (stat_tables_cover_variable_names "gfs" _ Hn)).
Defined.

Lemma stat_stds_positive_witness :
  DataVars.stat_lookup DataVars.NWP_STDS "ukv" "t" = Ok (9202691 # 2097152) /\
  (0 < 9202691 # 2097152)%Q.
Proof.
  assert (H : DataVars.stat_lookup DataVars.NWP_STDS "ukv" "t" = Ok (9202691 # 2097152))
    by (vm_compute; reflexivity).
  split; [exact H|].
  exact (proj1 stat_stds_positive "ukv" "t" _ H).
Defined.

Lemma open_gfs_grid_witness :
  GFS.open_store Examples.gfs_reader Examples.gfs_reader "gfs.zarr" = Ok Examples.gfs_raw /\
  GFS.open_gfs Examples.gfs_reader Examples.gfs_reader "gfs.zarr" = Ok Examples.gfs_out /\
  GFS.da_step Examples.gfs_out = GFS.hourly_labels 0 360.
Proof.
  assert (H1 : GFS.open_store Examples.gfs_reader Examples.gfs_reader "gfs.zarr"
               = Ok Examples.gfs_raw) by reflexivity.
  assert (H2 : GFS.open_gfs Examples.gfs_reader Examples.gfs_reader "gfs.zarr"
               = Ok Examples.gfs_out) by reflexivity.
  split; [exact H1|]; split; [exact H2|].
  destruct (open_gfs_grid _ _ _ _ _ H1 H2) as (_ & _ & _ & Hs & _).
  exact Hs.
Defined.

Lemma open_gfs_success_iff_witness :
  GFS.open_store Examples.gfs_reader Examples.gfs_reader "gfs.zarr" = Ok Examples.gfs_raw /\
  GFS.well_formed Examples.gfs_raw = true /\
  exists out, GFS.open_gfs Examples.gfs_reader Examples.gfs_reader "gfs.zarr" = Ok out.
Proof.
  assert (H1 : GFS.open_store Examples.gfs_reader Examples.gfs_reader "gfs.zarr"
               = Ok Examples.gfs_raw) by reflexivity.
  assert (Hw : GFS.well_formed Examples.gfs_raw = true) by reflexivity.
  split; [exact H1|]; split; [exact Hw|].
  apply (open_gfs_success_iff _ _ _ _ H1 Hw).
  split; [|split; [reflexivity|split; [|split; [|split; [|split]]]]].
  - repeat constructor; intros E; vm_compute in E; discriminate E.
  - discriminate.
  - repeat constructor.
  - discriminate.
  - repeat constructor.
  - repeat constructor.
Defined.

Lemma open_gfs_error_order_witness :
  GFS.open_store Examples.gfs_unsorted_reader Examples.gfs_unsorted_reader "gfs.zarr"
    = Ok Examples.gfs_raw_unsorted /\
  GFS.well_formed Examples.gfs_raw_unsorted = true /\
  GFS.open_gfs Examples.gfs_unsorted_reader Examples.gfs_unsorted_reader "gfs.zarr"
    = Err (ValueError "index must be monotonic for resampling").
Proof.
  assert (H1 : GFS.open_store Examples.gfs_unsorted_reader Examples.gfs_unsorted_reader
                 "gfs.zarr" = Ok Examples.gfs_raw_unsorted) by reflexivity.
  assert (Hw : GFS.well_formed Examples.gfs_raw_unsorted = true) by reflexivity.
  split; [exact H1|]; split; [exact Hw|].
  destruct (open_gfs_error_order _ _ _ _ H1 Hw) as (_ & _ & _ & H4).
  apply H4; [| reflexivity | reflexivity | discriminate | reflexivity].
  repeat constructor; intros E; vm_compute in E; discriminate E.
Defined.

Lemma open_gfs_rejects_lead_time_zero_witness :
  GFS.open_store Examples.gfs_step0_reader Examples.gfs_step0_reader "gfs.zarr"
    = Ok Examples.gfs_raw_step0 /\
  GFS.well_formed Examples.gfs_raw_step0 = true /\
  GFS.open_gfs Examples.gfs_step0_reader Examples.gfs_step0_reader "gfs.zarr" =
    Err (ValueError "cannot reindex or align along dimension 'step' because the (pandas) index has duplicate values").
Proof.
  assert (H1 : GFS.open_store Examples.gfs_step0_reader Examples.gfs_step0_reader
                 "gfs.zarr" = Ok Examples.gfs_raw_step0) by reflexivity.
  assert (Hw : GFS.well_formed Examples.gfs_raw_step0 = true) by reflexivity.
  split; [exact H1|]; split; [exact Hw|].
  apply (open_gfs_rejects_lead_time_zero _ _ _ _ [180%Z] H1 Hw).
  - repeat constructor; intros E; vm_compute in E; discriminate E.
  - reflexivity.
  - discriminate.
  - repeat constructor.
  - reflexivity.
  - repeat constructor.
Defined.

Lemma national_pv_image_source_witness :
  MetNet.metnet_national_datapipe Examples.config_nwp_pv "train" = Ok Examples.national_nwp_pv /\
  map (fun '(img, b, n) => (MetNet.leaf_of img, MetNet.data_chain img, b, n))
      (MetNet.pv_image_nodes Examples.national_nwp_pv) =
    [(Some (MetNet.LNWP "nwp.zarr"),
      [MetNet.SOpen; MetNet.SAddT0; MetNet.SSlice; MetNet.SNormalize], true, 100%Z)].
Proof.
  assert (Hr : MetNet.metnet_national_datapipe Examples.config_nwp_pv "train"
               = Ok Examples.national_nwp_pv) by reflexivity.
  split; [exact Hr|].
  exact (proj1 (national_pv_image_source _ _ _ Hr)).
Defined.

Lemma national_fork_children_witness :
  MetNet.metnet_national_datapipe Examples.config_nwp_pv "train" = Ok Examples.national_nwp_pv /\
  ~ In (5, 2)%nat (MetNet.t0_fork_children Examples.national_nwp_pv).
Proof.
  assert (Hr : MetNet.metnet_national_datapipe Examples.config_nwp_pv "train"
               = Ok Examples.national_nwp_pv) by reflexivity.
  split; [exact Hr|].
  intros Hin.
  destruct (national_fork_children _ _ _ Hr) as (_ & Ht).
  apply Ht in Hin.
  destruct Hin as [Hk | [[Hk _] | [[_ Hs] | [[Hk _] | [Hk _]]]]];
    [discriminate | discriminate | apply Hs; reflexivity | discriminate | discriminate].
Defined.
